(** * kupfer/objects.py: leaves, actions and sources

    A shallow embedding of the object core of kupfer (Python 2):
    [KupferObject], the [Leaf] classes, the [Action] classes and the
    [Source] classes, with the caching policy of [Source.get_leaves], the
    identity of sources ([__eq__], [__hash__], [__repr__]) and the
    content / parent navigation protocol.

    Python objects that are mutated through shared references (the sources,
    whose [cached_items] field is written by [get_leaves]) live in a store
    and are referred to by their location.  Leaves and actions are never
    mutated after construction and are plain values.  What the program reads
    from the desktop (file system, icon theme, gnomevfs, desktop entries) is
    a record of oracles, [World], passed to every operation. *)

From Stdlib Require Import ZArith Ascii String.
From stdpp Require Import base tactics option list strings sorting pretty.

Local Open Scope string_scope.
Local Open Scope list_scope.

(** ** Python strings and [os.path] *)

Module Py.

(** Truth value of a [str]: the empty string is false. *)
Definition truthy (s : string) : bool :=
  match s with
  | EmptyString => false
  | String _ _ => true
  end.

(** Truth value of an optional [str] ([None] is false). *)
Definition truthy_opt (o : option string) : bool :=
  match o with
  | None => false
  | Some s => truthy s
  end.

(** Truth value of a list or tuple: the empty one is false. *)
Definition truthy_list {A} (l : list A) : bool :=
  match l with
  | [] => false
  | _ :: _ => true
  end.

(** ["%s" % x] for a value that is a [str] or [None]. *)
Definition fmt_s (o : option string) : string :=
  match o with
  | None => "None"
  | Some s => s
  end.

(** ["%d" % n]. *)
Definition fmt_d (n : Z) : string := pretty n.

(** [sep.join(l)]. *)
Fixpoint join (sep : string) (l : list string) : string :=
  match l with
  | [] => ""
  | [x] => x
  | x :: r => x +:+ sep +:+ join sep r
  end.

(** [sorted(l)] on a list of [str]: the order is the byte-wise
    lexicographic one, under which two strings that compare equal are the
    same string, so that the result does not depend on the (stable) sorting
    algorithm. *)
Definition sorted (l : list string) : list string := merge_sort String.le l.

(** [s.startswith(pre)]. *)
Definition startswith (pre s : string) : bool := String.prefix pre s.

(** ['/' in s]. *)
Fixpoint has_slash (s : string) : bool :=
  match s with
  | EmptyString => false
  | String c r => if decide (c = "/"%char) then true else has_slash r
  end.

(** [posixpath.basename(p)]: what follows the last slash. *)
Fixpoint basename (p : string) : string :=
  match p with
  | EmptyString => ""
  | String c r =>
      if has_slash r then basename r
      else if decide (c = "/"%char) then r else String c r
  end.

(** [s.endswith("/")]. *)
Fixpoint ends_with_slash (s : string) : bool :=
  match s with
  | EmptyString => false
  | String c EmptyString => bool_decide (c = "/"%char)
  | String _ r => ends_with_slash r
  end.

(** [posixpath.join(a, b)]. *)
Definition path_join (a b : string) : string :=
  if startswith "/" b then b
  else if negb (truthy a) || ends_with_slash a then a +:+ b
  else a +:+ "/" +:+ b.

(** [s.split(sep)] for a one-character separator. *)
Fixpoint split (sep : ascii) (s : string) : list string :=
  match s with
  | EmptyString => [""]
  | String c r =>
      if decide (c = sep) then "" :: split sep r
      else match split sep r with
           | h :: t => String c h :: t
           | [] => [String c ""]
           end
  end.

(** One round of the loop of [posixpath.normpath]; [new_comps] is kept
    with its last element first. *)
Definition normpath_step (initial_slashes : nat) (new_comps : list string)
    (comp : string) : list string :=
  if bool_decide (comp = "") || bool_decide (comp = ".") then new_comps
  else if negb (bool_decide (comp = ".."))
          || (bool_decide (initial_slashes = 0) && bool_decide (new_comps = []))
          || bool_decide (head new_comps = Some "..")
       then comp :: new_comps
       else tail new_comps.

Fixpoint slashes (n : nat) : string :=
  match n with
  | O => ""
  | S k => "/" +:+ slashes k
  end.

(** [posixpath.normpath(path)]. *)
Definition normpath (path : string) : string :=
  if bool_decide (path = "") then "."
  else
    let initial_slashes :=
      if startswith "/" path then
        if startswith "//" path && negb (startswith "///" path) then 2 else 1
      else 0 in
    let comps := rev (fold_left (normpath_step initial_slashes) (split "/" path) []) in
    let path' := slashes initial_slashes +:+ join "/" comps in
    if truthy path' then path' else ".".

(** [os.path.pardir]. *)
Definition pardir : string := "..".

(** The extension returned by [posixpath.splitext(p)]: the part of the
    base name from its last dot on, provided some character other than a
    dot comes before that dot. *)
Fixpoint ext_go (seen_other : bool) (s : string) : option string :=
  match s with
  | EmptyString => None
  | String c r =>
      match ext_go (seen_other || negb (bool_decide (c = "."%char))) r with
      | Some e => Some e
      | None =>
          if bool_decide (c = "."%char) && seen_other then Some s else None
      end
  end.

Definition splitext_ext (p : string) : string :=
  default "" (ext_go false (basename p)).

(** [s.split()]: the words of [s] between runs of white space. *)
Definition split_ws (s : string) : list string := String.words s.

End Py.

(** ** Exceptions and results *)

(** The exception classes of the module ([Error] and its four subclasses)
    and the built-in exceptions that its code can run into. *)
Inductive exn : Type :=
  | NoParent
  | NoContent
  | InvalidData
  | InvalidLeaf (msg : string)
  | TypeError
  | AttributeError
  | IndexError
  | OSError.

(** How a call ends: with a value, with an exception, or (for the
    embedding only) with the recursion budget used up or a location that
    the store does not hold. *)
Inductive outcome (A : Type) : Type :=
  | Returned (a : A)
  | Raised (e : exn)
  | OutOfFuel
  | Dangling.

Arguments Returned {A} a.
Arguments Raised {A} e.
Arguments OutOfFuel {A}.
Arguments Dangling {A}.

(** ** The data model *)

(** A location of a source object in the store. *)
Definition loc := nat.

(** An image handle ([gtk.gdk.Pixbuf]); such an object is always true. *)
Inductive Pixbuf : Type := PixbufHandle (id : nat).

(** What the code reads from a [gnomedesktop] item. *)
Record DesktopItem : Type := mkDesktopItem {
  di_location : string;             (* get_location() *)
  di_name : option string;          (* get_string(KEY_NAME) *)
  di_loc_name : option string;      (* get_localestring(KEY_NAME) *)
  di_comment : option string;       (* get_string(KEY_COMMENT) *)
  di_exec : option string;          (* get_string(KEY_EXEC) *)
  di_type : option string;          (* get_string(KEY_TYPE) *)
  di_hidden : bool;                 (* get_boolean(KEY_HIDDEN) *)
  di_no_display : bool;             (* get_boolean(KEY_NO_DISPLAY) *)
  di_terminal : bool;               (* get_boolean(KEY_TERMINAL) *)
  di_icon : option string           (* get_icon(icon_theme) *)
}.

(** An entry of the recent documents manager. *)
Record RecentItem : Type := mkRecentItem {
  ri_age : Z;                       (* get_age() *)
  ri_exists : bool;                 (* exists() *)
  ri_uri : string;                  (* get_uri() *)
  ri_short_name : string;           (* get_short_name() *)
  ri_is_local : bool;               (* is_local() *)
  ri_uri_display : string           (* get_uri_display() *)
}.

(** The [object] attribute of a leaf, as a dynamically typed value. *)
Inductive pyobj : Type :=
  | ONone
  | OStr (s : string)
  | OItem (item : DesktopItem)
  | OSource (s : loc).

(** The leaf classes.  [FileLeaf] and [UrlLeaf] hold a [str], [SourceLeaf]
    a source, [AppLeaf] a desktop item; the base class holds anything. *)
Inductive Leaf : Type :=
  | BaseLeaf (obj : pyobj) (name : string)
  | DummyLeaf
  | FileLeaf (obj : string) (name : string)
  | SourceLeaf (obj : loc) (name : string)
  | AppLeaf (item : DesktopItem)
  | UrlLeaf (obj : string) (name : string).

(** The action classes, with the arguments of their constructors. *)
Inductive Action : Type :=
  | BaseAction (name : option string)
  | Echo
  | OpenWith (desktop_item : option DesktopItem) (name : string)
  | OpenUrl (name : option string)
  | Show (name : option string)
  | OpenDirectory
  | RevealFile (name : option string)
  | OpenTerminal
  | Dragbox
  | Launch (name : option string) (in_terminal : bool)
  | Execute (name : option string) (in_terminal : bool)
  | SearchInside
  | RescanSource
  | DummyAction (name : option string).

(** The source classes, with the attributes their constructors set. *)
Inductive SourceKind : Type :=
  | KSource
  | KFileSource (dirlist : list string) (depth : Z)
  | KDirectorySource (directory : string) (deep : bool)
  | KSourcesSource (sources : list loc)
  | KMultiSource (sources : list loc)
  | KAppSource
  | KRecentsSource (max_days : Z)
  | KPlacesSource (places_file : string).

(** A source object: its [name], the attributes of its class and the
    mutable [cached_items] ([None] until the first load). *)
Record Source : Type := mkSource {
  name : string;
  kind : SourceKind;
  cached_items : option (list Leaf)
}.

(** A value that a method may return. *)
Inductive pyval : Type :=
  | VNone
  | VBool (b : bool)
  | VSource (s : loc).

(** ** The desktop *)

(** Everything the module reads from outside: [os], [os.path],
    [gnomevfs], [gnomedesktop], [gtk], [kupfer.icons] and [kupfer.utils].
    The last two are modules of kupfer that are not part of this file. *)
Record World : Type := mkWorld {
  (* os.path and os *)
  isdir : string -> bool;
  exists_ : string -> bool;
  samefile : string -> string -> option bool;   (* None: os.stat fails *)
  access_r : string -> bool;
  access_rx : string -> bool;
  expanduser : string -> string;
  walk_top : string -> option (list string);     (* file names of the first triple of os.walk *)
  file_lines : string -> list string;            (* for line in open(f) *)
  (* kupfer.utils *)
  get_dirlist : string -> option Z -> (string -> bool) -> list string;
  get_xdg_data_dirs : list string;
  new_desktop_item : string -> bool -> DesktopItem;
  (* kupfer.icons *)
  get_icon_for_name : string -> Z -> option Pixbuf;
  get_icon_for_uri : string -> Z -> option Pixbuf;
  get_icon_from_file : string -> Z -> option Pixbuf;
  get_icon_for_desktop_item : option DesktopItem -> Z -> option Pixbuf;
  get_default_application_icon : Z -> option Pixbuf;
  (* gnomevfs *)
  get_uri_from_local_path : string -> string;
  get_local_path_from_uri : string -> string;
  format_uri_for_display : string -> string;
  get_uri_scheme : string -> option string;
  get_file_mime_type : string -> string;
  mime_get_default_application : string -> option (string * string);
  mime_get_all_applications : string -> list (string * string);
  (* gnomedesktop *)
  item_new_from_basename : string -> option DesktopItem;
  item_new_from_file : string -> option DesktopItem;
  (* gtk *)
  recent_items : list RecentItem
}.

(** ** Effects *)

(** What a call leaves behind besides the store: its output and the
    processes it starts, and (as a record of control flow) each entry into
    a [get_items] method. *)
Inductive Event : Type :=
  | EvPrint (s : string)
  | EvPrintObj (label : string) (o : pyobj)
  | EvEcho (leaf : Leaf)
  | EvGetItems (s : loc)
  | EvUrlShow (url : string)
  | EvSpawnAsync (argv : list pyobj) (in_dir : option pyobj)
  | EvSetExec (item : DesktopItem) (exc : string)
  | EvLaunch (item : DesktopItem) (args : list string).

Record State : Type := mkState {
  store : list Source;
  log : list Event
}.

(** Computations over the state that may raise. *)
Definition M (A : Type) : Type := State -> outcome A * State.

Definition ret {A} (a : A) : M A := fun st => (Returned a, st).

Definition raise {A} (e : exn) : M A := fun st => (Raised e, st).

Definition bind {A B} (m : M A) (f : A -> M B) : M B :=
  fun st =>
    match m st with
    | (Returned a, st') => f a st'
    | (Raised e, st') => (Raised e, st')
    | (OutOfFuel, st') => (OutOfFuel, st')
    | (Dangling, st') => (Dangling, st')
    end.

Notation "'let!' x ':=' m 'in' k" := (bind m (fun x => k))
  (at level 10, x name, m at level 100, k at level 200).
Notation "m ';;;' k" := (bind m (fun _ => k))
  (at level 100, k at level 200, right associativity).

(** Append an event to the log. *)
Definition emit (e : Event) : M unit :=
  fun st => (Returned tt, mkState (store st) (log st ++ [e])).

Definition print (s : string) : M unit := emit (EvPrint s).

(** Read the object at a location. *)
Definition deref (l : loc) : M Source :=
  fun st =>
    match store st !! l with
    | Some s => (Returned s, st)
    | None => (Dangling, st)
    end.

(** Allocate a new object. *)
Definition alloc (s : Source) : M loc :=
  fun st => (Returned (length (store st)), mkState (store st ++ [s]) (log st)).

(** [self.cached_items = items] on the object at [l]. *)
Definition set_cached_items (l : loc) (items : list Leaf) : M unit :=
  fun st =>
    match store st !! l with
    | Some s =>
        (Returned tt,
         mkState (<[l := mkSource (name s) (kind s) (Some items)]> (store st)) (log st))
    | None => (Dangling, st)
    end.

(** Sequence a computation over a list, left to right. *)
Fixpoint mapM {A B} (f : A -> M B) (l : list A) : M (list B) :=
  match l with
  | [] => ret []
  | x :: r => let! y := f x in let! ys := mapM f r in ret (y :: ys)
  end.

(** ** KupferObject *)

Inductive KupferObject : Type :=
  | ObjLeaf (l : Leaf)
  | ObjAction (a : Action)
  | ObjSource (s : Source).

(** The class attribute [icon_size]. *)
Definition icon_size : Z := 96.

(** [KupferObject.__init__]: a false name is replaced by the class name. *)
Definition init_name (cls : string) (name : option string) : string :=
  match name with
  | Some n => if Py.truthy n then n else cls
  | None => cls
  end.

(** The default that a constructor gives its [name] argument before it
    calls the constructor of its base class. *)
Definition name_or (dflt : string) (name : option string) : option string :=
  if Py.truthy_opt name then name else Some dflt.

(** [AppLeaf._init_from_item]: the name shown for a desktop entry. *)
Definition AppLeaf_name (item : DesktopItem) : string :=
  let loc_name := di_loc_name item in
  let name := di_name item in
  if negb (bool_decide (name = loc_name)) || negb (Py.truthy_opt loc_name)
  then Py.fmt_s loc_name +:+ " (" +:+ Py.fmt_s name +:+ ")"
  else Py.fmt_s name.

Definition Leaf_class (l : Leaf) : string :=
  match l with
  | BaseLeaf _ _ => "Leaf"
  | DummyLeaf => "DummyLeaf"
  | FileLeaf _ _ => "FileLeaf"
  | SourceLeaf _ _ => "SourceLeaf"
  | AppLeaf _ => "AppLeaf"
  | UrlLeaf _ _ => "UrlLeaf"
  end.

(** The [name] attribute of a leaf. *)
Definition Leaf_name (l : Leaf) : string :=
  match l with
  | BaseLeaf _ n | FileLeaf _ n | SourceLeaf _ n | UrlLeaf _ n =>
      init_name (Leaf_class l) (Some n)
  | DummyLeaf => init_name "DummyLeaf" (Some "No matches")
  | AppLeaf item => AppLeaf_name item
  end.

(** The [object] attribute of a leaf. *)
Definition Leaf_object (l : Leaf) : pyobj :=
  match l with
  | BaseLeaf o _ => o
  | DummyLeaf => ONone
  | FileLeaf p _ => OStr p
  | SourceLeaf s _ => OSource s
  | AppLeaf item => OItem item
  | UrlLeaf u _ => OStr u
  end.

Definition Action_class (a : Action) : string :=
  match a with
  | BaseAction _ => "Action"
  | Echo => "Echo"
  | OpenWith _ _ => "OpenWith"
  | OpenUrl _ => "OpenUrl"
  | Show _ => "Show"
  | OpenDirectory => "OpenDirectory"
  | RevealFile _ => "RevealFile"
  | OpenTerminal => "OpenTerminal"
  | Dragbox => "Dragbox"
  | Launch _ _ => "Launch"
  | Execute _ _ => "Execute"
  | SearchInside => "SearchInside"
  | RescanSource => "RescanSource"
  | DummyAction _ => "DummyAction"
  end.

(** The [name] attribute of an action. *)
Definition Action_name (a : Action) : string :=
  let cls := Action_class a in
  match a with
  | BaseAction n => init_name cls n
  | Echo => init_name cls (Some "Echo")
  | OpenWith _ n => init_name cls (Some ("Open with " +:+ n))
  | OpenUrl n => init_name cls (name_or "Open URL" n)
  | Show n => init_name cls (name_or "Open URL" (name_or "Open" n))
  | OpenDirectory => init_name cls (name_or "Open URL" (name_or "Open" (Some "Open")))
  | RevealFile n => init_name cls (name_or "Open URL" (name_or "Reveal" n))
  | OpenTerminal => init_name cls (Some "Open Terminal here")
  | Dragbox => init_name cls (Some "Put on dragbox")
  | Launch n _ => init_name cls (name_or "Launch" n)
  | Execute n _ => init_name cls (name_or "Launch" (name_or "Execute" n))
  | SearchInside => init_name cls (Some "Search content...")
  | RescanSource => init_name cls (Some "Rescan")
  | DummyAction n => init_name cls (name_or "No action" n)
  end.

Definition Source_class (s : Source) : string :=
  match kind s with
  | KSource => "Source"
  | KFileSource _ _ => "FileSource"
  | KDirectorySource _ _ => "DirectorySource"
  | KSourcesSource _ => "SourcesSource"
  | KMultiSource _ => "MultiSource"
  | KAppSource => "AppSource"
  | KRecentsSource _ => "RecentsSource"
  | KPlacesSource _ => "PlacesSource"
  end.

(** [self.__class__.__name__]. *)
Definition class_name (o : KupferObject) : string :=
  match o with
  | ObjLeaf l => Leaf_class l
  | ObjAction a => Action_class a
  | ObjSource s => Source_class s
  end.

(** [__str__]: the name. *)
Definition __str__ (o : KupferObject) : string :=
  match o with
  | ObjLeaf l => Leaf_name l
  | ObjAction a => Action_name a
  | ObjSource s => name s
  end.

(** [__repr__]: [KupferObject.__repr__], which [FileSource] overrides. *)
Definition __repr__ (o : KupferObject) : string :=
  match o with
  | ObjSource (mkSource _ (KFileSource dirlist depth) _) =>
      "<" +:+ class_name o +:+ " " +:+ Py.join " " (Py.sorted dirlist)
          +:+ " depth=" +:+ Py.fmt_d depth +:+ ">"
  | _ => "<" +:+ class_name o +:+ " " +:+ __str__ o +:+ ">"
  end.

(** ** Constructors of the sources *)

(** [Source.__init__(name)], which calls [KupferObject.__init__]. *)
Definition Source_init (cls : string) (name : option string) (k : SourceKind) : Source :=
  mkSource (init_name cls (name_or cls name)) k None.

Definition BaseSource (name : option string) : Source :=
  Source_init "Source" name KSource.

(** [FileSource(dirlist, depth)]; [dirlist[0]] raises on an empty list. *)
Definition FileSource (dirlist : list string) (depth : Z) : outcome Source :=
  match dirlist with
  | [] => Raised IndexError
  | d0 :: _ =>
      let name := Py.basename d0 in
      let name := if bool_decide (1 < length dirlist) then name +:+ " et al" else name in
      Returned (Source_init "FileSource" (Some name) (KFileSource dirlist depth))
  end.

(** [DirectorySource(dir)]. *)
Definition DirectorySource (dir : string) : Source :=
  let name := if Py.truthy (Py.basename dir) then Py.basename dir else dir in
  Source_init "DirectorySource" (Some name) (KDirectorySource dir false).

Definition SourcesSource (sources : list loc) (name : option string) : Source :=
  Source_init "SourcesSource" name (KSourcesSource sources).

(** The default of the [name] argument of [SourcesSource]. *)
Definition SourcesSource_default_name : string := "Catalog of Catalogs".

Definition MultiSource (sources : list loc) : Source :=
  Source_init "MultiSource" (Some "Catalog") (KMultiSource sources).

Definition AppSource : Source :=
  Source_init "AppSource" (Some "All Applications") KAppSource.

Definition RecentsSource : Source :=
  Source_init "RecentsSource" (Some "Recent items") (KRecentsSource 14).

Definition PlacesSource : Source :=
  Source_init "PlacesSource" (Some "Places") (KPlacesSource "~/.gtk-bookmarks").

(** ** Icons and descriptions *)

(** [Source.is_dynamic]: only [MultiSource] overrides it. *)
Definition is_dynamic (s : Source) : bool :=
  match kind s with
  | KMultiSource _ => true
  | _ => false
  end.

Definition Source_get_pixbuf (s : Source) : option Pixbuf := None.

Definition Source_get_icon_name (s : Source) : option string :=
  match kind s with
  | KSource => None
  | KFileSource _ _ => Some "folder-saved-search"
  | KDirectorySource _ _ => Some "folder"
  | KSourcesSource _ => Some "folder-saved-search"
  | KMultiSource _ => Some "folder-saved-search"
  | KAppSource => Some "gnome-applications"
  | KRecentsSource _ => Some "emblem-important"
  | KPlacesSource _ => Some "file-manager"
  end.

Definition Source_get_description (s : Source) : option string :=
  match kind s with
  | KSource => None
  | KFileSource _ depth =>
      Some ("Recursive source of " +:+ name s +:+ ", (" +:+ Py.fmt_d depth +:+ " levels)")
  | KDirectorySource dir _ => Some ("Directory source " +:+ dir)
  | KSourcesSource _ => Some "An index of all sources"
  | KMultiSource _ => Some "Root catalog"
  | KAppSource => None
  | KRecentsSource _ => Some "Recently used documents"
  | KPlacesSource _ => Some "Bookmarked locations in Nautilus"
  end.

(** [get_pixbuf]: the raw image of an object.  A [SourceLeaf] asks the
    source it wraps. *)
Definition get_pixbuf (w : World) (o : KupferObject) : M (option Pixbuf) :=
  match o with
  | ObjLeaf (FileLeaf p _) =>
      ret (get_icon_for_uri w (get_uri_from_local_path w p) icon_size)
  | ObjLeaf (SourceLeaf src _) =>
      let! s := deref src in ret (Source_get_pixbuf s)
  | ObjLeaf (AppLeaf item) =>
      match di_icon item with
      | Some icon_file =>
          if Py.truthy icon_file
          then ret (get_icon_from_file w icon_file icon_size)
          else ret (get_default_application_icon w icon_size)
      | None => ret (get_default_application_icon w icon_size)
      end
  | ObjLeaf _ => ret None
  | ObjAction (OpenWith desktop_item _) =>
      match get_icon_for_desktop_item w desktop_item icon_size with
      | Some app_icon => ret (Some app_icon)
      | None => ret (get_default_application_icon w icon_size)
      end
  | ObjAction (Launch _ _) | ObjAction (Execute _ _) =>
      ret (get_default_application_icon w icon_size)
  | ObjAction _ => ret None
  | ObjSource s => ret (Source_get_pixbuf s)
  end.

(** [get_icon_name]: the symbolic icon name of an object. *)
Definition get_icon_name (o : KupferObject) : M (option string) :=
  match o with
  | ObjLeaf DummyLeaf => ret (Some "gtk-dialog-warning")
  | ObjLeaf (SourceLeaf src _) =>
      let! s := deref src in ret (Source_get_icon_name s)
  | ObjLeaf (UrlLeaf _ _) => ret (Some "text-html")
  | ObjLeaf _ => ret None
  | ObjAction a =>
      ret (Some
        match a with
        | Echo => "emblem-system"
        | OpenUrl _ => "forward"
        | Show _ => "exec"
        | OpenDirectory | RevealFile _ => "folder-open"
        | OpenTerminal => "terminal"
        | Dragbox => "gtk-copy"
        | SearchInside => "search"
        | RescanSource => "gtk-refresh"
        | BaseAction _ | OpenWith _ _ | Launch _ _ | Execute _ _
        | DummyAction _ => "gtk-execute"
        end)
  | ObjSource s => ret (Source_get_icon_name s)
  end.

(** [get_description]. *)
Definition get_description (o : KupferObject) : M (option string) :=
  match o with
  | ObjLeaf (FileLeaf p _) => ret (Some p)
  | ObjLeaf (SourceLeaf src _) =>
      let! s := deref src in ret (Source_get_description s)
  | ObjLeaf (AppLeaf item) => ret (di_comment item)
  | ObjLeaf _ => ret None
  | ObjAction Echo => ret (Some "Print debug output")
  | ObjAction (RevealFile _) => ret (Some "Open parent folder")
  | ObjAction RescanSource => ret (Some "Force reindex of the source")
  | ObjAction _ => ret None
  | ObjSource s => ret (Source_get_description s)
  end.

(** [KupferObject.get_icon]: the image if [get_pixbuf] gives one, else
    the themed icon of the name that [get_icon_name] gives, else [None]. *)
Definition get_icon (w : World) (o : KupferObject) : M (option Pixbuf) :=
  let! pbuf := get_pixbuf w o in
  match pbuf with
  | Some p => ret (Some p)
  | None =>
      let! icon_name := get_icon_name o in
      match icon_name with
      | Some n =>
          if Py.truthy n then ret (get_icon_for_name w n icon_size)
          else ret None
      | None => ret None
      end
  end.

(** [aslist]: the sequences of the embedding are lists already. *)
Definition aslist {A} (seq : list A) : list A := seq.

(** ** Leaves *)

(** [has_content]. *)
Definition has_content (w : World) (l : Leaf) : bool :=
  match l with
  | FileLeaf p _ => isdir w p
  | SourceLeaf _ _ => true
  | _ => false
  end.

(** [Leaf.content_source], the method of the base class. *)
Definition Leaf_content_source (l : Leaf) : M loc := raise NoContent.

(** [content_source]: a [FileLeaf] with content makes a new
    [DirectorySource], a [SourceLeaf] gives the source it wraps. *)
Definition content_source (w : World) (l : Leaf) : M loc :=
  match l with
  | FileLeaf p _ =>
      if has_content w l then alloc (DirectorySource p)
      else Leaf_content_source l
  | SourceLeaf src _ => ret src
  | _ => Leaf_content_source l
  end.

(** [FileLeaf._desktop_item]. *)
Definition _desktop_item (w : World) (basename : string) : option DesktopItem :=
  item_new_from_basename w basename.

(** The loop of [FileLeaf.get_actions] over the applications of the mime
    type; [apps] is the set of application ids already offered. *)
Fixpoint open_with_actions (w : World) (types : list (string * string))
    (apps : list string) : list Action :=
  match types with
  | [] => []
  | info :: r =>
      if bool_decide (info.2 ∈ apps) then open_with_actions w r apps
      else OpenWith (_desktop_item w info.1) info.2
             :: open_with_actions w r (info.2 :: apps)
  end.

(** [get_actions]; for a [SourceLeaf] the generator is run to its end. *)
Definition get_actions (w : World) (l : Leaf) : M (list Action) :=
  match l with
  | FileLeaf p _ =>
      let acts := [RevealFile None; Dragbox; Echo] in
      if isdir w p then
        ret (OpenDirectory :: acts ++ [OpenTerminal; SearchInside])
      else if access_r w p then
        let mime_type := get_file_mime_type w p in
        let def_app := mime_get_default_application w mime_type in
        let types := mime_get_all_applications w mime_type in
        let default :=
          match def_app with
          | Some d => OpenWith (_desktop_item w d.1) d.2
          | None => Show None
          end in
        let apps := match def_app with Some d => [d.2] | None => [] end in
        let execs :=
          if access_rx w p
          then [Execute None false; Execute (Some "Execute in Terminal") true]
          else [] in
        ret (default :: acts ++ open_with_actions w types apps ++ execs)
      else ret (Show None :: acts)
  | SourceLeaf src _ =>
      let! s := deref src in
      ret (SearchInside :: (if negb (is_dynamic s) then [RescanSource] else []))
  | AppLeaf _ =>
      ret [Launch None false; Launch (Some "Launch in Terminal") true; Echo]
  | UrlLeaf _ _ => ret [OpenUrl None; Echo]
  | _ => ret []
  end.

(** [ContstructFileLeaf]: an [AppLeaf] for a desktop entry file that
    loads, a [FileLeaf] otherwise. *)
Definition ContstructFileLeaf (w : World) (obj name : string) : Leaf :=
  if bool_decide (Py.splitext_ext obj = ".desktop") then
    match item_new_from_file w obj with
    | Some desktop_item => AppLeaf desktop_item
    | None => FileLeaf obj name
    end
  else FileLeaf obj name.

(** ** Enumeration of the sources *)

(** [FileSource._exclude_file] and the [exclude] of [DirectorySource]. *)
Definition _exclude_file (filename : string) : bool := Py.startswith "." filename.

(** [AppSource.get_items], the inner function [add_desktop_item]: the
    entries kept so far (in order) and the base names already seen. *)
Definition add_desktop_item (w : World) (acc : list DesktopItem * list string)
    (item : DesktopItem) : list DesktopItem * list string :=
  let '(desktop_files, inc_files) := acc in
  if di_hidden item || di_no_display item
     || negb (bool_decide (di_type item = Some "Application"))
  then acc
  else
    let fileloc := get_local_path_from_uri w (di_location item) in
    let name := Py.basename fileloc in
    if bool_decide (name ∈ inc_files) then acc
    else (desktop_files ++ [item], name :: inc_files).

(** The loop of [AppSource.get_items] over the files of one directory. *)
Definition add_desktop_files (w : World) (root : string)
    (acc : list DesktopItem * list string) (fnames : list string)
    : list DesktopItem * list string :=
  fold_left
    (fun acc file =>
       match item_new_from_file w (Py.path_join root file) with
       | Some item => add_desktop_item w acc item
       | None => acc
       end)
    fnames acc.

(** The loop of [AppSource.get_items] over the data directories.  The
    sub-directories are removed from the walk, so that only the files of
    [apps] itself are visited. *)
Definition app_desktop_files (w : World) : list DesktopItem :=
  (fold_left
     (fun acc d =>
        let apps := Py.path_join d "applications" in
        if negb (exists_ w apps) then acc
        else match walk_top w apps with
             | Some fnames => add_desktop_files w apps acc fnames
             | None => acc
             end)
     (get_xdg_data_dirs w) ([], [])).1.

(** The loop of [RecentsSource.get_items]. *)
Fixpoint recent_leaves (max_days : Z) (items : list RecentItem) : list Leaf :=
  match items with
  | [] => []
  | item :: r =>
      if bool_decide (ri_age item > max_days)%Z then []
      else if negb (ri_exists item) then recent_leaves max_days r
      else
        (if ri_is_local item
         then FileLeaf (ri_uri_display item) (ri_short_name item)
         else UrlLeaf (ri_uri item) (ri_short_name item))
        :: recent_leaves max_days r
  end.

(** [PlacesSource._get_places]: one leaf for each line that is not blank. *)
Definition place_leaf (w : World) (line : string) : option Leaf :=
  match Py.split_ws line with
  | [] => None
  | uri :: rest =>
      let title :=
        match rest with
        | t :: _ => t
        | [] => Py.basename (format_uri_for_display w uri)
        end in
      if bool_decide (get_uri_scheme w uri = Some "file")
      then Some (FileLeaf (get_local_path_from_uri w uri) title)
      else Some (UrlLeaf uri title)
  end.

(** [get_items]: the items of a source, computed anew.  [get_leaves] is
    the method that [MultiSource] calls on its sources.  The iterators and
    generators that the methods return are given as the list of what they
    yield. *)
Definition get_items (get_leaves : loc -> M (list Leaf)) (w : World)
    (self : loc) : M (list Leaf) :=
  emit (EvGetItems self) ;;;
  let! s := deref self in
  match kind s with
  | KSource => ret []
  | KFileSource dirlist depth =>
      ret (concat
             (map (fun d =>
                     map (fun f => FileLeaf f (Py.basename f))
                         (get_dirlist w d (Some depth) _exclude_file))
                  dirlist))
  | KDirectorySource directory _ =>
      ret (map (fun file => ContstructFileLeaf w file (Py.basename file))
               (get_dirlist w directory None _exclude_file))
  | KSourcesSource sources =>
      mapM (fun so => let! s' := deref so in ret (SourceLeaf so (name s'))) sources
  | KMultiSource sources =>
      let! iterators := mapM get_leaves sources in
      ret (concat iterators)
  | KAppSource => ret (map AppLeaf (app_desktop_files w))
  | KRecentsSource max_days =>
      let items := recent_leaves max_days (recent_items w) in
      print ("items younger than " +:+ Py.fmt_d max_days +:+ " days") ;;;
      ret items
  | KPlacesSource places_file =>
      let fileloc := expanduser w places_file in
      if negb (exists_ w fileloc) then ret []
      else ret (omap (place_leaf w) (file_lines w fileloc))
  end.

(** [Source.get_leaves]: a dynamic source computes its items at every
    call; any other source loads them when [cached_items] is false (that
    is [None] or empty) or [force_update] is set, and returns
    [cached_items].  [fuel] bounds the depth of the calls from a
    [MultiSource] to the sources below it. *)
Fixpoint get_leaves (fuel : nat) (w : World) (self : loc) (force_update : bool)
    : M (list Leaf) :=
  match fuel with
  | O => fun st => (OutOfFuel, st)
  | S n =>
      let! s := deref self in
      if is_dynamic s then get_items (fun so => get_leaves n w so false) w self
      else
        let load :=
          print (__str__ (ObjSource s) +:+ ": Loading...") ;;;
          let! items := get_items (fun so => get_leaves n w so false) w self in
          let cache := aslist items in
          set_cached_items self cache ;;;
          print (" loaded " +:+ Py.fmt_d (Z.of_nat (length cache)) +:+ " items") ;;;
          ret cache in
        match cached_items s with
        | None => load
        | Some cache =>
            if negb (Py.truthy_list cache) || force_update then load
            else ret cache
        end
  end.

(** ** Parents *)

(** [DirectorySource._parent_path]. *)
Definition _parent_path (directory : string) : string :=
  Py.normpath (Py.path_join directory Py.pardir).

(** [has_parent]: false, except for a [DirectorySource] whose directory
    is not the same file as its parent; [os.path.samefile] raises when it
    cannot stat a path. *)
Definition has_parent (w : World) (s : Source) : M bool :=
  match kind s with
  | KDirectorySource directory _ =>
      match samefile w directory (_parent_path directory) with
      | Some same => ret (negb same)
      | None => raise OSError
      end
  | _ => ret false
  end.

(** [Source.get_parent], the method of the base class. *)
Definition Source_get_parent (s : Source) : M pyval := raise NoParent.

(** [FileSource.has_parent(self)], a call of the unbound method: Python 2
    checks that its first argument is an instance of [FileSource] before
    it runs the method, which is the one inherited from [Source]. *)
Definition FileSource_has_parent (self : Source) : M pyval :=
  match kind self with
  | KFileSource _ _ => ret (VBool false)
  | _ => raise TypeError
  end.

(** [get_parent]. *)
Definition get_parent (w : World) (self : loc) : M pyval :=
  let! s := deref self in
  match kind s with
  | KDirectorySource directory _ =>
      let! hp := has_parent w s in
      if negb hp then FileSource_has_parent s
      else
        let! p := alloc (DirectorySource (_parent_path directory)) in
        ret (VSource p)
  | _ => Source_get_parent s
  end.

(** ** Actions *)

(** [is_factory]: only [SearchInside] overrides the [False] of [Action]. *)
Definition is_factory (a : Action) : bool :=
  match a with
  | SearchInside => true
  | _ => false
  end.

(** [OpenUrl.open_url]. *)
Definition open_url (url : string) : M unit := emit (EvUrlShow url).

(** [OpenWith.preprocess_item]; the result is the desktop item as the
    method leaves it. *)
Definition preprocess_item (item : DesktopItem) : M DesktopItem :=
  match di_exec item with
  | None => ret item
  | Some exc =>
      if negb (Py.truthy exc) then ret item
      else if bool_decide (1 < length (Py.split_ws exc)) then ret item
      else
        print ("Desktop item " +:+ exc +:+ " seems to take no files in exec") ;;;
        let newexc := exc +:+ " %F" in
        print ("Setting KEY_EXEC to " +:+ newexc) ;;;
        emit (EvSetExec item newexc) ;;;
        ret (mkDesktopItem (di_location item) (di_name item) (di_loc_name item)
               (di_comment item) (Some newexc) (di_type item) (di_hidden item)
               (di_no_display item) (di_terminal item) (di_icon item))
  end.

(** [Launch.launch_item]. *)
Definition launch_item (in_terminal : bool) (item : DesktopItem) : M unit :=
  let item :=
    if in_terminal
    then mkDesktopItem (di_location item) (di_name item) (di_loc_name item)
           (di_comment item) (di_exec item) (di_type item) (di_hidden item)
           (di_no_display item) true (di_icon item)
    else item in
  emit (EvLaunch item []).

(** [activate]: use the action with a leaf.  A library function given an
    object that is not of the type it works on raises [TypeError]; the
    use of a method that the object does not have, [AttributeError].
    [fuel] is that of the [get_leaves] of [RescanSource]. *)
Definition activate (fuel : nat) (w : World) (a : Action) (leaf : Leaf) : M pyval :=
  match a with
  | BaseAction _ | DummyAction _ => ret VNone
  | Echo =>
      print "Echo" ;;;
      emit (EvEcho leaf) ;;;
      match leaf with
      | AppLeaf item => print (".desktop: " +:+ di_location item) ;;; ret VNone
      | _ => ret VNone
      end
  | OpenWith desktop_item _ =>
      match desktop_item with
      | None => raise AttributeError
      | Some item =>
          let! item' := preprocess_item item in
          match Leaf_object leaf with
          | OStr filepath =>
              let uri := get_uri_from_local_path w filepath in
              emit (EvLaunch item' [uri]) ;;; ret VNone
          | _ => raise TypeError
          end
      end
  | OpenUrl _ =>
      let url := Leaf_object leaf in
      emit (EvPrintObj "Open url:" url) ;;;
      match url with
      | OStr u => open_url u ;;; ret VNone
      | _ => raise TypeError
      end
  | Show _ | OpenDirectory =>
      emit (EvPrintObj "Show:" (Leaf_object leaf)) ;;;
      match Leaf_object leaf with
      | OStr p => open_url (get_uri_from_local_path w p) ;;; ret VNone
      | _ => raise TypeError
      end
  | RevealFile _ =>
      match Leaf_object leaf with
      | OStr fileloc =>
          let parent := Py.normpath (Py.path_join fileloc Py.pardir) in
          open_url (get_uri_from_local_path w parent) ;;; ret VNone
      | _ => raise AttributeError
      end
  | OpenTerminal =>
      let argv := [OStr "gnome-terminal"] in
      print "['gnome-terminal']" ;;;
      emit (EvSpawnAsync argv (Some (Leaf_object leaf))) ;;; ret VNone
  | Dragbox =>
      let path := Leaf_object leaf in
      emit (EvSpawnAsync [OStr "dragbox"; path] None) ;;; ret VNone
  | Launch _ in_terminal =>
      match Leaf_object leaf with
      | OItem desktop_item => launch_item in_terminal desktop_item ;;; ret VNone
      | _ => raise AttributeError
      end
  | Execute _ in_terminal =>
      match Leaf_object leaf with
      | OStr fileloc =>
          launch_item in_terminal (new_desktop_item w fileloc in_terminal) ;;; ret VNone
      | _ => raise TypeError
      end
  | SearchInside =>
      if negb (has_content w leaf) then raise (InvalidLeaf "Must have content")
      else let! src := content_source w leaf in ret (VSource src)
  | RescanSource =>
      if negb (has_content w leaf) then raise (InvalidLeaf "Must have content")
      else
        match Leaf_object leaf with
        | OSource source =>
            let! s := deref source in
            if negb (is_dynamic s)
            then let! cache := get_leaves fuel w source true in ret VNone
            else ret VNone
        | _ => raise AttributeError
        end
  end.

(** ** Identity of the sources *)

Section Identity.

(** The built-in [hash] on [str]. *)
Variable hash : string -> Z.

(** [Source.__eq__]. *)
Definition __eq__ (self : Source) (other : KupferObject) : bool :=
  bool_decide (class_name (ObjSource self) = class_name other)
  && bool_decide (__repr__ (ObjSource self) = __repr__ other).

(** [Source.__hash__]. *)
Definition __hash__ (self : Source) : Z := hash (__repr__ (ObjSource self)).

End Identity.

(** ** A small desktop for the examples *)

Module Desk.

(** The directories of the example file system. *)
Definition dirs : list string :=
  ["/"; "/p1"; "/p2"; "/empty"; "/a/bin"; "/b/bin"; "/usr"; "/usr/local"].

(** The listing of a directory; [grown] tells whether a file has been
    added to [/empty] since. *)
Definition listing (grown : bool) (dir : string) : list string :=
  if bool_decide (dir = "/p1") then ["/p1/x"; "/p1/y"]
  else if bool_decide (dir = "/p2") then ["/p2/z"]
  else if bool_decide (dir = "/empty") then (if grown then ["/empty/new"] else [])
  else [].

Definition world (grown : bool) : World :=
  {| isdir := fun p => bool_decide (p ∈ dirs);
     exists_ := fun p => bool_decide (p ∈ dirs);
     samefile := fun a b =>
       if bool_decide (a ∈ dirs) && bool_decide (b ∈ dirs)
       then Some (bool_decide (a = b)) else None;
     access_r := fun _ => true;
     access_rx := fun _ => false;
     expanduser := fun p => p;
     walk_top := fun _ => None;
     file_lines := fun _ => [];
     get_dirlist := fun dir _ exclude =>
       filter (fun f => negb (exclude (Py.basename f)) = true) (listing grown dir);
     get_xdg_data_dirs := [];
     new_desktop_item := fun p t =>
       mkDesktopItem p None None None (Some p) (Some "Application") false false t None;
     get_icon_for_name := fun _ _ => Some (PixbufHandle 1);
     get_icon_for_uri := fun _ _ => Some (PixbufHandle 2);
     get_icon_from_file := fun _ _ => Some (PixbufHandle 3);
     get_icon_for_desktop_item := fun _ _ => None;
     get_default_application_icon := fun _ => Some (PixbufHandle 4);
     get_uri_from_local_path := fun p => "file://" +:+ p;
     get_local_path_from_uri := fun u => u;
     format_uri_for_display := fun u => u;
     get_uri_scheme := fun _ => Some "file";
     get_file_mime_type := fun _ => "text/plain";
     mime_get_default_application := fun _ => None;
     mime_get_all_applications := fun _ => [];
     item_new_from_basename := fun _ => None;
     item_new_from_file := fun _ => None;
     recent_items := [] |}.

(** A store with the directory sources of [/p1], [/p2] and [/empty], the
    union of the first two, and the catalog of all four. *)
Definition sources : list Source :=
  [ DirectorySource "/p1"; DirectorySource "/p2"; DirectorySource "/empty";
    MultiSource [0; 1];
    SourcesSource [0; 1; 2; 3] (Some SourcesSource_default_name) ].

Definition state : State := mkState sources [].

(** The same, with the root directory in place of [/p1]. *)
Definition root_state : State :=
  mkState [DirectorySource "/"] [].

End Desk.

(** The state in which the body of [get_items] starts. *)
Definition entered (self : loc) (st : State) : State :=
  mkState (store st) (log st ++ [EvGetItems self]).

(** How many times the log records an entry into [get_items] of the
    source at [self]. *)
Fixpoint get_items_calls (self : loc) (l : list Event) : nat :=
  match l with
  | [] => 0
  | EvGetItems s :: r =>
      (if bool_decide (s = self) then 1 else 0) + get_items_calls self r
  | _ :: r => get_items_calls self r
  end.

(** The number of items that come before those of the source at index
    [i] in the union. *)
Definition offset {A} (its : list (list A)) (i : nat) : nat :=
  length (concat (take i its)).

(** Run a series of [get_leaves(force_update=False)] calls on one
    source, each with its own budget (of one call at least) and in its own
    desktop, and collect what they return. *)
Fixpoint get_leaves_series (calls : list (nat * World)) (self : loc) (st : State)
    : list (outcome (list Leaf)) * State :=
  match calls with
  | [] => ([], st)
  | (fuel, w) :: r =>
      let '(out, st1) := get_leaves (S fuel) w self false st in
      let '(outs, st2) := get_leaves_series r self st1 in
      (out :: outs, st2)
  end.

(** The sources of a [MultiSource] polled in list order: the items that
    each [get_leaves()] returns and the state that the last one leaves. *)
Inductive polled (fuel : nat) (w : World)
    : list loc -> State -> list (list Leaf) -> State -> Prop :=
  | polled_nil st : polled fuel w [] st [] st
  | polled_cons so sources st items st1 rest st2 :
      get_leaves fuel w so false st = (Returned items, st1) ->
      polled fuel w sources st1 rest st2 ->
      polled fuel w (so :: sources) st (items :: rest) st2.

(** ** What an enumeration may change *)

(** [st'] comes after [st]: the store holds the same objects, each with
    the name and the class attributes it had (only [cached_items] may
    differ, and for a dynamic source not even that), and the log has only
    grown. *)
Definition evolves (st st' : State) : Prop :=
  length (store st') = length (store st)
  /\ (forall (l : loc) s, store st !! l = Some s ->
        exists c, store st' !! l = Some (mkSource (name s) (kind s) c)
                  /\ (is_dynamic s = true -> c = cached_items s))
  /\ exists evs, log st' = log st ++ evs.

(** ** Paths made of components *)

(** A name that can stand between two slashes of a normalized path: not
    empty, without a slash, and neither [.] nor [..]. *)
Definition clean (c : string) : bool :=
  Py.truthy c && negb (Py.has_slash c)
  && negb (bool_decide (c = ".")) && negb (bool_decide (c = "..")).

(** The absolute path [/c1/.../cn]; [/] when there is no component. *)
Definition abs_path (comps : list string) : string := "/" +:+ Py.join "/" comps.

(** ** What the actions of a leaf are *)

(** The application that an [OpenWith] action opens with. *)
Definition OpenWith_app (a : Action) : option string :=
  match a with
  | OpenWith _ name => Some name
  | _ => None
  end.

(** [st'] differs from [st] by what has been added to the log only. *)
Definition only_logs (st st' : State) : Prop :=
  store st' = store st /\ exists evs, log st' = log st ++ evs.

(** ** A desktop with applications *)

Module Apps.

Definition entry (location name : string) (hidden : bool) : DesktopItem :=
  mkDesktopItem location (Some name) (Some name) None (Some name)
    (Some "Application") hidden false false None.

(** The desktop entries of two data directories: the second one has an
    entry of the same file name as the first, and the first a hidden one
    and a file that is no desktop entry. *)
Definition load (path : string) : option DesktopItem :=
  if bool_decide (path = "/usr/share/applications/gedit.desktop")
  then Some (entry path "gedit" false)
  else if bool_decide (path = "/usr/share/applications/hidden.desktop")
  then Some (entry path "hidden" true)
  else if bool_decide (path = "/home/u/.local/share/applications/gedit.desktop")
  then Some (entry path "my gedit" false)
  else if bool_decide (path = "/home/u/.local/share/applications/term.desktop")
  then Some (entry path "term" false)
  else None.

Definition world : World :=
  {| isdir := isdir (Desk.world false);
     exists_ := fun p =>
       bool_decide (p ∈ ["/usr/share/applications";
                         "/home/u/.local/share/applications"]);
     samefile := samefile (Desk.world false);
     access_r := access_r (Desk.world false);
     access_rx := access_rx (Desk.world false);
     expanduser := expanduser (Desk.world false);
     walk_top := fun p =>
       if bool_decide (p = "/usr/share/applications")
       then Some ["gedit.desktop"; "hidden.desktop"; "notes.txt"]
       else if bool_decide (p = "/home/u/.local/share/applications")
       then Some ["gedit.desktop"; "term.desktop"]
       else None;
     file_lines := file_lines (Desk.world false);
     get_dirlist := get_dirlist (Desk.world false);
     get_xdg_data_dirs := ["/usr/share"; "/nowhere"; "/home/u/.local/share"];
     new_desktop_item := new_desktop_item (Desk.world false);
     get_icon_for_name := get_icon_for_name (Desk.world false);
     get_icon_for_uri := get_icon_for_uri (Desk.world false);
     get_icon_from_file := get_icon_from_file (Desk.world false);
     get_icon_for_desktop_item := get_icon_for_desktop_item (Desk.world false);
     get_default_application_icon := get_default_application_icon (Desk.world false);
     get_uri_from_local_path := get_uri_from_local_path (Desk.world false);
     get_local_path_from_uri := get_local_path_from_uri (Desk.world false);
     format_uri_for_display := format_uri_for_display (Desk.world false);
     get_uri_scheme := get_uri_scheme (Desk.world false);
     get_file_mime_type := get_file_mime_type (Desk.world false);
     mime_get_default_application := mime_get_default_application (Desk.world false);
     mime_get_all_applications := mime_get_all_applications (Desk.world false);
     item_new_from_basename := item_new_from_basename (Desk.world false);
     item_new_from_file := load;
     recent_items :=
       [ mkRecentItem 1 true "file:///home/u/a.txt" "a.txt" true "/home/u/a.txt";
         mkRecentItem 2 false "file:///home/u/gone.txt" "gone.txt" true "/home/u/gone.txt";
         mkRecentItem 3 true "http://example.org/" "example.org" false "http://example.org/";
         mkRecentItem 20 true "file:///home/u/old.txt" "old.txt" true "/home/u/old.txt";
         mkRecentItem 5 true "file:///home/u/late.txt" "late.txt" true "/home/u/late.txt" ] |}.

(** A store with the source of all applications and the source of the
    recent documents. *)
Definition state : State := mkState [AppSource; RecentsSource] [].

End Apps.


(** The leaf that [RecentsSource.get_items] yields for a recent item. *)
Definition recent_leaf (item : RecentItem) : Leaf :=
  if ri_is_local item
  then FileLeaf (ri_uri_display item) (ri_short_name item)
  else UrlLeaf (ri_uri item) (ri_short_name item).

(** Whether a call ended with a value. *)
Definition returned {A} (o : outcome A) : bool :=
  match o with
  | Returned _ => true
  | _ => false
  end.

(** A union that lists itself: the only object of the store is a
    [MultiSource] over its own location. *)
Definition knot : State := mkState [MultiSource [0]] [].

(** * Properties *)

Example basename_bin : Py.basename "/usr/local/bin" = "bin".
Proof. reflexivity. Qed.

Example normpath_parent : _parent_path "/usr/local/bin" = "/usr/local".
Proof. vm_compute. reflexivity. Qed.

Example normpath_root : _parent_path "/" = "/".
Proof. vm_compute. reflexivity. Qed.

Example splitext_desktop :
  Py.splitext_ext "/usr/share/applications/gedit.desktop" = ".desktop".
Proof. vm_compute. reflexivity. Qed.

Example splitext_hidden : Py.splitext_ext "/home/u/.desktop" = "".
Proof. vm_compute. reflexivity. Qed.

Example sorted_ab : Py.sorted ["/b"; "/a"] = ["/a"; "/b"].
Proof. vm_compute. reflexivity. Qed.

Example FileSource_repr :
  __repr__ (ObjSource (mkSource "a et al" (KFileSource ["/b"; "/a"] 2) None))
  = "<FileSource /a /b depth=2>".
Proof. vm_compute. reflexivity. Qed.

(** ** Identity *)

(** Sorting forgets the order of the arguments. *)
Lemma sorted_Permutation (l1 l2 : list string) :
  l1 ≡ₚ l2 -> Py.sorted l1 = Py.sorted l2.
Proof.
  intros Hp. unfold Py.sorted.
  apply (Sorted_unique String.le).
  - apply Sorted_merge_sort. apply _.
  - apply Sorted_merge_sort. apply _.
  - by rewrite !merge_sort_Permutation.
Qed.

(** The representation of a source does not depend on its cache. *)
Lemma repr_cached_items (n : string) (k : SourceKind) (c1 c2 : option (list Leaf)) :
  __repr__ (ObjSource (mkSource n k c1)) = __repr__ (ObjSource (mkSource n k c2)).
Proof. by destruct k. Qed.

(** Two file sources over the same paths, in any order, and of the same
    depth have the same representation, whatever they have cached. *)
Lemma FileSource_repr_Permutation (l1 l2 : list string) (depth : Z) (s1 s2 : Source) :
  l1 ≡ₚ l2 ->
  kind s1 = KFileSource l1 depth -> kind s2 = KFileSource l2 depth ->
  __repr__ (ObjSource s1) = __repr__ (ObjSource s2).
Proof.
  intros Hp H1 H2. destruct s1 as [n1 k1 c1], s2 as [n2 k2 c2]; simpl in *; subst.
  simpl. by rewrite (sorted_Permutation l1 l2 Hp).
Qed.

(** Equal representations give equal hash values. *)
Lemma eq_hash (hash : string -> Z) (s1 s2 : Source) :
  __eq__ s1 (ObjSource s2) = true -> __hash__ hash s1 = __hash__ hash s2.
Proof.
  unfold __eq__, __hash__. intros H.
  apply andb_prop in H as [_ H]. apply bool_decide_eq_true in H. by rewrite H.
Qed.

(** C1: the file sources built from ["/a", "/b"] with depth 2 and from
    ["/b", "/a"] with depth 2 are equal and have the same hash value,
    whatever each has cached since; the file source built from ["/a"] with
    depth 1 is equal to neither of them. *)
Theorem C1_FileSource_identity (hash : string -> Z) (c1 c2 c3 : option (list Leaf)) :
  exists n1 k1 n2 k2 n3 k3,
    FileSource ["/a"; "/b"] 2 = Returned (mkSource n1 k1 None)
    /\ FileSource ["/b"; "/a"] 2 = Returned (mkSource n2 k2 None)
    /\ FileSource ["/a"] 1 = Returned (mkSource n3 k3 None)
    /\ let s1 := mkSource n1 k1 c1 in
       let s2 := mkSource n2 k2 c2 in
       let s3 := mkSource n3 k3 c3 in
       __eq__ s1 (ObjSource s2) = true
       /\ __eq__ s2 (ObjSource s1) = true
       /\ __hash__ hash s1 = __hash__ hash s2
       /\ __eq__ s3 (ObjSource s1) = false
       /\ __eq__ s3 (ObjSource s2) = false
       /\ __eq__ s1 (ObjSource s3) = false
       /\ __eq__ s2 (ObjSource s3) = false.
Proof.
  do 6 eexists. repeat split; try reflexivity.
Qed.

(** The name of a directory source is the base name of its directory
    when there is one. *)
Lemma DirectorySource_name (dir : string) :
  Py.truthy (Py.basename dir) = true ->
  name (DirectorySource dir) = Py.basename dir.
Proof.
  intros H. unfold DirectorySource, Source_init, init_name, name_or. simpl.
  by rewrite !H.
Qed.

(** C9, as the code has it: two directory sources whose directories have
    the same base name, and that base name is not empty, are equal and
    have the same hash value, whatever each has cached. *)
Theorem C9_DirectorySource_same_basename (hash : string -> Z) (d1 d2 : string)
    (c1 c2 : option (list Leaf)) :
  Py.basename d1 = Py.basename d2 ->
  Py.truthy (Py.basename d1) = true ->
  let s1 := mkSource (name (DirectorySource d1)) (kind (DirectorySource d1)) c1 in
  let s2 := mkSource (name (DirectorySource d2)) (kind (DirectorySource d2)) c2 in
  __eq__ s1 (ObjSource s2) = true /\ __hash__ hash s1 = __hash__ hash s2.
Proof.
  intros Hb Ht s1 s2.
  assert (__eq__ s1 (ObjSource s2) = true) as Heq.
  { unfold __eq__. apply andb_true_intro.
    split; apply bool_decide_eq_true_2; [reflexivity|].
    unfold s1, s2. rewrite !DirectorySource_name by congruence.
    rewrite Hb. reflexivity. }
  split; [done | by apply eq_hash].
Qed.

(** The directory sources of [/a/bin] and [/b/bin] are equal. *)
Lemma C9_DirectorySource_same_basename_witness :
  __eq__ (DirectorySource "/a/bin") (ObjSource (DirectorySource "/b/bin")) = true
  /\ __hash__ (fun s => Z.of_nat (String.length s)) (DirectorySource "/a/bin")
     = __hash__ (fun s => Z.of_nat (String.length s)) (DirectorySource "/b/bin").
Proof.
  apply (C9_DirectorySource_same_basename
           (fun s => Z.of_nat (String.length s)) "/a/bin" "/b/bin" None None);
    reflexivity.
Defined.

(** C9, as stated, fails on directories written with a final slash: their
    base name is empty, the name falls back to the whole path, and the
    sources of [/a/] and [/b/] differ although the base names agree. *)
Lemma C9_counterexample_trailing_slash :
  Py.basename "/a/" = Py.basename "/b/"
  /\ __eq__ (DirectorySource "/a/") (ObjSource (DirectorySource "/b/")) = false.
Proof. split; reflexivity. Qed.

(** ** Icons *)

(** C7: [get_icon] gives the image of [get_pixbuf] when there is one;
    only when there is none does it ask [get_icon_name], and it gives the
    themed icon of that name when the name is not empty; only when there is
    no name either does it give [None]. *)
Theorem C7_get_icon_precedence (w : World) (o : KupferObject) (st : State) :
  (forall p st',
      get_pixbuf w o st = (Returned (Some p), st') ->
      get_icon w o st = (Returned (Some p), st'))
  /\ (forall st' n st'',
      get_pixbuf w o st = (Returned None, st') ->
      get_icon_name o st' = (Returned (Some n), st'') ->
      Py.truthy n = true ->
      get_icon w o st = (Returned (get_icon_for_name w n icon_size), st''))
  /\ (forall st' nm st'',
      get_pixbuf w o st = (Returned None, st') ->
      get_icon_name o st' = (Returned nm, st'') ->
      Py.truthy_opt nm = false ->
      get_icon w o st = (Returned None, st'')).
Proof.
  unfold get_icon, bind. repeat split.
  - intros p st' ->. done.
  - intros st' n st'' -> Hn Ht. unfold ret. rewrite Hn. by rewrite Ht.
  - intros st' nm st'' -> Hn Ht. rewrite Hn.
    destruct nm as [n|]; [|done]. simpl in Ht. by rewrite Ht.
Qed.

(** The accessors read the store and leave the state as it is. *)
Lemma get_pixbuf_state (w : World) (o : KupferObject) (st : State) :
  (get_pixbuf w o st).2 = st.
Proof.
  destruct o as [l|a|s]; [destruct l|destruct a|]; try done; simpl.
  - unfold bind, deref. by destruct (store st !! obj).
  - by destruct (di_icon item) as [f|]; [destruct (Py.truthy f)|].
  - by destruct (get_icon_for_desktop_item w desktop_item icon_size).
Qed.

Lemma get_icon_name_state (o : KupferObject) (st : State) :
  (get_icon_name o st).2 = st.
Proof.
  destruct o as [l|a|s]; [destruct l| |]; try done; simpl.
  unfold bind, deref. by destruct (store st !! obj).
Qed.

(** A launcher has an image of its own, which wins over the icon name
    that it inherits from [Action]. *)
Example get_icon_Launch :
  get_icon (Desk.world false) (ObjAction (Launch None false)) Desk.state
  = (Returned (Some (PixbufHandle 4)), Desk.state).
Proof. reflexivity. Qed.

(** A catalog leaf has no image and shows the themed icon of its source. *)
Example get_icon_SourceLeaf :
  get_icon (Desk.world false) (ObjLeaf (SourceLeaf 3 "Catalog")) Desk.state
  = (Returned (Some (PixbufHandle 1)), Desk.state).
Proof. reflexivity. Qed.

(** A plain leaf has neither. *)
Example get_icon_BaseLeaf :
  get_icon (Desk.world false) (ObjLeaf (BaseLeaf ONone "x")) Desk.state
  = (Returned None, Desk.state).
Proof. reflexivity. Qed.

(** ** Content *)

(** C4: a leaf without content raises [NoContent] from [content_source];
    a leaf with content returns a source: a file leaf on a directory a new
    [DirectorySource] of that directory, a source leaf the source that it
    wraps. *)
Theorem C4_content_source (w : World) (leaf : Leaf) (st : State) :
  (has_content w leaf = false ->
     content_source w leaf st = (Raised NoContent, st))
  /\ (has_content w leaf = true ->
     exists src st', content_source w leaf st = (Returned src, st'))
  /\ (forall p n, leaf = FileLeaf p n -> has_content w leaf = true ->
     content_source w leaf st
     = (Returned (length (store st)),
        mkState (store st ++ [DirectorySource p]) (log st)))
  /\ (forall src n, leaf = SourceLeaf src n ->
     has_content w leaf = true /\ content_source w leaf st = (Returned src, st)).
Proof.
  repeat split.
  - destruct leaf; simpl; try done. by intros ->.
  - destruct leaf; simpl; try done; [intros ->|]; eauto.
  - intros p n -> H. simpl in *. by rewrite H.
  - by subst.
  - by subst.
Qed.

(** A file leaf on the directory [/p1] and one on a plain file. *)
Lemma C4_content_source_witness :
  content_source (Desk.world false) (FileLeaf "/p1" "p1") Desk.state
  = (Returned 5,
     mkState (Desk.sources ++ [DirectorySource "/p1"]) [])
  /\ content_source (Desk.world false) (FileLeaf "/p1/x" "x") Desk.state
     = (Raised NoContent, Desk.state).
Proof.
  split.
  - apply (proj1 (proj2 (proj2
      (C4_content_source (Desk.world false) (FileLeaf "/p1" "p1") Desk.state)))
      "/p1" "p1"); reflexivity.
  - apply (proj1
      (C4_content_source (Desk.world false) (FileLeaf "/p1/x" "x") Desk.state)).
    reflexivity.
Defined.

(** ** Parents *)

(** A source of any class but [DirectorySource] has no parent, and
    [get_parent] raises [NoParent] on it. *)
Lemma get_parent_NoParent (w : World) (self : loc) (s : Source) (st : State) :
  store st !! self = Some s ->
  (forall directory deep, kind s <> KDirectorySource directory deep) ->
  has_parent w s st = (Returned false, st)
  /\ get_parent w self st = (Raised NoParent, st).
Proof.
  intros Hs Hk. unfold has_parent, get_parent, bind, deref. rewrite Hs.
  destruct (kind s); try done. by destruct (Hk directory deep).
Qed.

(** C3, where the code departs from it: on a directory source whose
    directory is the same file as its parent, [has_parent] is false and
    [get_parent] calls [FileSource.has_parent(self)], which raises
    [TypeError] since the source is no [FileSource]; [NoParent] is not
    raised. *)
Theorem C3_DirectorySource_get_parent_at_root (w : World) (self : loc)
    (s : Source) (directory : string) (deep : bool) (st : State) :
  store st !! self = Some s ->
  kind s = KDirectorySource directory deep ->
  samefile w directory (_parent_path directory) = Some true ->
  has_parent w s st = (Returned false, st)
  /\ get_parent w self st = (Raised TypeError, st).
Proof.
  intros Hs Hk Hsame.
  assert (has_parent w s st = (Returned false, st)) as Hp.
  { unfold has_parent. by rewrite Hk, Hsame. }
  split; [done|].
  unfold get_parent, bind, deref. rewrite Hs. cbn beta iota.
  rewrite Hk, Hp. cbn beta iota.
  unfold FileSource_has_parent. by rewrite Hk.
Qed.

(** The directory source of [/]. *)
Lemma C3_DirectorySource_get_parent_at_root_witness :
  has_parent (Desk.world false) (DirectorySource "/") Desk.root_state
  = (Returned false, Desk.root_state)
  /\ get_parent (Desk.world false) 0 Desk.root_state
     = (Raised TypeError, Desk.root_state).
Proof.
  apply (C3_DirectorySource_get_parent_at_root
           (Desk.world false) 0 (DirectorySource "/") "/" false Desk.root_state);
    reflexivity.
Defined.

(** A directory source below the root does have a parent, a new source. *)
Example get_parent_p1 :
  get_parent (Desk.world false) 0 Desk.state
  = (Returned (VSource 5), mkState (Desk.sources ++ [DirectorySource "/"]) []).
Proof. reflexivity. Qed.

(** ** Actions *)

(** C5: an action that is no factory never returns a source, whatever
    the leaf; a factory action returns a source on every leaf that has
    content; and [SearchInside] and [RescanSource] raise [InvalidLeaf] on a
    leaf without content. *)
Theorem C5_factory_contract (fuel : nat) (w : World) (a : Action) (leaf : Leaf)
    (st : State) :
  (is_factory a = false ->
     forall src, (activate fuel w a leaf st).1 <> Returned (VSource src))
  /\ (is_factory a = true -> has_content w leaf = true ->
     exists src st', activate fuel w a leaf st = (Returned (VSource src), st'))
  /\ (a = SearchInside \/ a = RescanSource -> has_content w leaf = false ->
     activate fuel w a leaf st = (Raised (InvalidLeaf "Must have content"), st)).
Proof.
  repeat split.
  - intros Hf src. destruct a; try discriminate Hf; unfold activate, bind; simpl.
    + done.
    + by destruct leaf.
    + destruct desktop_item as [item|]; [|done].
      destruct (preprocess_item item st) as [[item'| | |] st1]; try done.
      by destruct (Leaf_object leaf).
    + by destruct (Leaf_object leaf).
    + by destruct (Leaf_object leaf).
    + by destruct (Leaf_object leaf).
    + by destruct (Leaf_object leaf).
    + done.
    + done.
    + by destruct (Leaf_object leaf).
    + by destruct (Leaf_object leaf).
    + destruct (has_content w leaf); [|done]. simpl.
      destruct (Leaf_object leaf); try done.
      unfold deref. destruct (store st !! s) as [so|]; [|done].
      destruct (is_dynamic so); [done|]. simpl.
      by destruct (get_leaves fuel w s true st) as [[items| | |] st1].
    + done.
  - intros Hf Hc. destruct a; try discriminate Hf. unfold activate. rewrite Hc.
    simpl. unfold bind.
    destruct leaf; try discriminate Hc; simpl in *; rewrite ?Hc; eauto.
  - intros [->| ->] Hc; unfold activate; by rewrite Hc.
Qed.

(** [SearchInside] on the catalog leaf of a source and on a plain file. *)
Lemma C5_factory_contract_witness :
  (exists src st',
     activate 1 (Desk.world false) SearchInside (SourceLeaf 0 "p1") Desk.state
     = (Returned (VSource src), st'))
  /\ activate 1 (Desk.world false) RescanSource (FileLeaf "/p1/x" "x") Desk.state
     = (Raised (InvalidLeaf "Must have content"), Desk.state).
Proof.
  split.
  - apply (proj1 (proj2
      (C5_factory_contract 1 (Desk.world false) SearchInside (SourceLeaf 0 "p1")
         Desk.state))); reflexivity.
  - apply (proj2 (proj2
      (C5_factory_contract 1 (Desk.world false) RescanSource (FileLeaf "/p1/x" "x")
         Desk.state))); [by right | reflexivity].
Defined.

(** [RescanSource] on a file leaf of a directory finds a path where it
    expects a source; it still returns no source. *)
Example RescanSource_on_directory :
  activate 1 (Desk.world false) RescanSource (FileLeaf "/p1" "p1") Desk.state
  = (Raised AttributeError, Desk.state).
Proof. reflexivity. Qed.

(** ** The cache *)

(** Reading the names of a list of sources leaves the state as it is. *)
Lemma mapM_deref_state {B} (f : loc -> Source -> B) (l : list loc) (st : State) :
  (mapM (fun so => let! s' := deref so in ret (f so s')) l st).2 = st.
Proof.
  induction l as [|so l IH]; [done|]. simpl. unfold bind at 1. unfold bind at 1.
  unfold deref at 1. destruct (store st !! so) as [s'|]; [|done]. simpl.
  unfold bind. destruct (mapM _ l st) as [[ys| | |] st1]; simpl in *; by subst.
Qed.

(** [get_items] on a source that is not dynamic records its call, may
    print, and leaves the store as it is. *)
Lemma get_items_static (rec : loc -> M (list Leaf)) (w : World) (self : loc)
    (s : Source) (st : State) :
  store st !! self = Some s ->
  is_dynamic s = false ->
  exists out evs,
    get_items rec w self st
    = (out, mkState (store st) (log st ++ EvGetItems self :: evs)).
Proof.
  intros Hs Hd. unfold get_items, bind, emit, deref. cbn beta iota.
  change (store (mkState (store st) (log st ++ [EvGetItems self]))) with (store st).
  rewrite Hs. cbn beta iota. unfold is_dynamic in Hd.
  destruct (kind s) eqn:Hk; try discriminate Hd;
    try (by eexists _, []).
  - pose proof (mapM_deref_state (fun so s' => SourceLeaf so (name s')) sources
                  (entered self st)) as Hm.
    unfold entered in Hm.
    destruct (mapM _ sources _) as [out st1]. simpl in Hm. subst st1.
    by eexists out, [].
  - eexists _, [_]. unfold print, emit, ret. cbn. by rewrite <- app_assoc.
  - destruct (negb _); by eexists _, [].
Qed.

(** What [get_leaves] does when it loads: it prints, computes the items,
    stores them and prints their number. *)
Lemma get_leaves_load (n : nat) (w : World) (self : loc) (s : Source)
    (force_update : bool) (st : State) :
  store st !! self = Some s ->
  is_dynamic s = false ->
  negb (Py.truthy_list (default [] (cached_items s))) || force_update = true ->
  exists out evs,
    get_leaves (S n) w self force_update st
    = (out,
       mkState
         (match out with
          | Returned items => <[self := mkSource (name s) (kind s) (Some items)]> (store st)
          | _ => store st
          end)
         (log st ++ EvPrint (name s +:+ ": Loading...") :: EvGetItems self :: evs)).
Proof.
  intros Hs Hd Hc. cbn [get_leaves]. unfold bind at 1. unfold deref at 1.
  rewrite Hs. cbn beta iota. rewrite Hd.
  set (load := bind (print _) _).
  assert (exists out evs, load st
    = (out,
       mkState
         (match out with
          | Returned items => <[self := mkSource (name s) (kind s) (Some items)]> (store st)
          | _ => store st
          end)
         (log st ++ EvPrint (name s +:+ ": Loading...") :: EvGetItems self :: evs)))
    as Hload.
  { unfold load, bind at 1, print at 1, emit. cbn beta iota. unfold bind at 1.
    edestruct (get_items_static (fun so => get_leaves n w so false) w self s
                 (mkState (store st) (log st ++ [EvPrint (__str__ (ObjSource s) +:+ ": Loading...")])))
      as (out & evs & Hg); [done..|].
    rewrite Hg. cbn [store log] in *.
    destruct out as [items| | |]; cbn beta iota.
    - unfold bind, set_cached_items, print, emit, ret, aslist. cbn [store log].
      rewrite Hs. cbn beta iota. cbn [store log].
      eexists (Returned items), (evs ++ [_]).
      f_equal. f_equal. rewrite <- !app_assoc. reflexivity.
    - eexists (Raised e), evs. by rewrite <- app_assoc.
    - eexists OutOfFuel, evs. by rewrite <- app_assoc.
    - eexists Dangling, evs. by rewrite <- app_assoc. }
  destruct (cached_items s) as [cache|]; [|done].
  simpl in Hc. by rewrite Hc.
Qed.

(** A source that is not dynamic and has a cache that is not empty
    returns it, and nothing else happens. *)
Lemma get_leaves_cached (n : nat) (w : World) (self : loc) (s : Source)
    (cache : list Leaf) (st : State) :
  store st !! self = Some s ->
  is_dynamic s = false ->
  cached_items s = Some cache ->
  cache <> [] ->
  get_leaves (S n) w self false st = (Returned cache, st).
Proof.
  intros Hs Hd Hc Hne. cbn [get_leaves]. unfold bind at 1. unfold deref at 1.
  rewrite Hs. cbn beta iota. rewrite Hd, Hc.
  destruct cache; [done|]. reflexivity.
Qed.

(** After [get_leaves] has returned, a source that is not dynamic holds
    what was returned as its cache. *)
Lemma get_leaves_static_post (n : nat) (w : World) (self : loc) (s : Source)
    (force_update : bool) (st st' : State) (items : list Leaf) :
  store st !! self = Some s ->
  is_dynamic s = false ->
  get_leaves (S n) w self force_update st = (Returned items, st') ->
  store st' !! self = Some (mkSource (name s) (kind s) (Some items)).
Proof.
  intros Hs Hd Hg.
  destruct (negb (Py.truthy_list (default [] (cached_items s))) || force_update)
    eqn:Hc.
  - destruct (get_leaves_load n w self s force_update st Hs Hd Hc)
      as (out & evs & Hl).
    rewrite Hl in Hg. injection Hg as -> <-. cbn [store].
    apply list_lookup_insert_eq. by eapply lookup_lt_Some.
  - apply orb_false_elim in Hc as [Hc ->].
    destruct (cached_items s) as [cache|] eqn:Hci; [|done].
    destruct cache as [|x cache]; [done|].
    rewrite (get_leaves_cached n w self s (x :: cache) st) in Hg by done.
    injection Hg as <- <-. rewrite Hs. by destruct s; simpl in *; subst.
Qed.

(** C2, as the code has it: once an enumeration of a source that is not
    dynamic has returned items, and at least one, every later
    [get_leaves(force_update=False)], with any budget and whatever the
    desktop has become, returns the same items and changes neither the
    store nor the log: [get_items] is not run again. *)
Theorem C2_cache_stability (n : nat) (w : World) (self : loc) (s : Source)
    (force_update : bool) (st st' : State) (items : list Leaf)
    (calls : list (nat * World)) :
  store st !! self = Some s ->
  is_dynamic s = false ->
  get_leaves (S n) w self force_update st = (Returned items, st') ->
  items <> [] ->
  get_leaves_series calls self st'
  = (replicate (length calls) (Returned items), st').
Proof.
  intros Hs Hd Hg Hne.
  pose proof (get_leaves_static_post n w self s force_update st st' items Hs Hd Hg)
    as Hpost.
  induction calls as [|[m w'] calls IH]; [done|]. cbn [get_leaves_series].
  rewrite (get_leaves_cached m w' self _ items st' Hpost); [|done..].
  by rewrite IH.
Qed.

(** The directory source of [/p1], read three times while the desktop
    changes. *)
Lemma C2_cache_stability_witness :
  exists st',
    get_leaves 1 (Desk.world false) 0 false Desk.state
    = (Returned [FileLeaf "/p1/x" "x"; FileLeaf "/p1/y" "y"], st')
    /\ get_leaves_series [(0, Desk.world true); (3, Desk.world false)] 0 st'
       = ([Returned [FileLeaf "/p1/x" "x"; FileLeaf "/p1/y" "y"];
           Returned [FileLeaf "/p1/x" "x"; FileLeaf "/p1/y" "y"]], st').
Proof.
  exists (get_leaves 1 (Desk.world false) 0 false Desk.state).2.
  split; [vm_compute; reflexivity|].
  apply (C2_cache_stability 0 (Desk.world false) 0 (DirectorySource "/p1") false
           Desk.state _ [FileLeaf "/p1/x" "x"; FileLeaf "/p1/y" "y"]
           [(0, Desk.world true); (3, Desk.world false)]);
    [reflexivity | reflexivity | vm_compute; reflexivity | discriminate].
Defined.

(** C2, as stated, fails when the enumeration has yielded nothing: the
    directory source of the empty directory [/empty] runs [get_items] again
    at the next [get_leaves(force_update=False)], and returns the file that
    has appeared since instead of the sequence it had. *)
Lemma C2_counterexample_empty_cache :
  exists st1 st2,
    is_dynamic (DirectorySource "/empty") = false
    /\ get_leaves 1 (Desk.world false) 2 false Desk.state = (Returned [], st1)
    /\ get_leaves 1 (Desk.world true) 2 false st1
       = (Returned [FileLeaf "/empty/new" "new"], st2)
    /\ log st2
       = log st1 ++ [EvPrint "empty: Loading..."; EvGetItems 2;
                     EvPrint " loaded 1 items"].
Proof.
  exists (get_leaves 1 (Desk.world false) 2 false Desk.state).2.
  exists (get_leaves 1 (Desk.world true) 2 false
            (get_leaves 1 (Desk.world false) 2 false Desk.state).2).2.
  repeat split; vm_compute; reflexivity.
Qed.

Lemma get_items_calls_app (self : loc) (l1 l2 : list Event) :
  get_items_calls self (l1 ++ l2)
  = get_items_calls self l1 + get_items_calls self l2.
Proof.
  induction l1 as [|e l1 IH]; [done|].
  destruct e; simpl; rewrite IH; lia.
Qed.

(** A load adds at least one entry into [get_items] to the log. *)
Lemma get_items_calls_load (self : loc) (l evs : list Event) (msg : string) :
  get_items_calls self l + 1
  <= get_items_calls self (l ++ EvPrint msg :: EvGetItems self :: evs).
Proof.
  rewrite get_items_calls_app. simpl. rewrite bool_decide_eq_true_2 by done. lia.
Qed.

(** As long as the enumerations of a source that is not dynamic return
    the empty sequence, each [get_leaves(force_update=False)] runs
    [get_items]. *)
Lemma get_leaves_series_empty (self : loc) (calls : list (nat * World)) :
  forall (s : Source) (st : State) (outs : list (outcome (list Leaf))) (st' : State),
    store st !! self = Some s ->
    is_dynamic s = false ->
    cached_items s = Some [] ->
    get_leaves_series calls self st = (outs, st') ->
    Forall (fun out => out = Returned []) outs ->
    get_items_calls self (log st) + length calls <= get_items_calls self (log st').
Proof.
  induction calls as [|[m w'] calls IH]; intros s st outs st' Hs Hd Hc Hser Hall.
  { injection Hser as <- <-. simpl. lia. }
  cbn [get_leaves_series] in Hser.
  destruct (get_leaves_load m w' self s false st Hs Hd) as (out & evs & Hl).
  { by rewrite Hc. }
  rewrite Hl in Hser.
  pose proof (get_items_calls_load self (log st) evs (name s +:+ ": Loading...")) as Hcount.
  destruct (get_leaves_series calls self _) as [outs1 st2] eqn:Hrest.
  injection Hser as <- <-.
  apply Forall_cons in Hall as [-> Hall].
  pose proof (get_leaves_static_post m w' self s false st _ [] Hs Hd Hl) as Hpost.
  specialize (IH _ _ _ _ Hpost Hd eq_refl Hrest Hall).
  cbn [log length] in *. lia.
Qed.

(** C10: when a [get_leaves] of a source that is not dynamic has returned
    the empty sequence, the source holds the empty list as its cache; the
    next [get_leaves(force_update=False)], with any budget and in any
    desktop, announces a load and runs [get_items] again; and so does each
    call of a series of them, as long as they return the empty sequence. *)
Theorem C10_empty_cache_reloads (n : nat) (w : World) (self : loc) (s : Source)
    (force_update : bool) (st st' : State) :
  store st !! self = Some s ->
  is_dynamic s = false ->
  get_leaves (S n) w self force_update st = (Returned [], st') ->
  store st' !! self = Some (mkSource (name s) (kind s) (Some []))
  /\ (forall m w', exists out evs st'',
       get_leaves (S m) w' self false st' = (out, st'')
       /\ log st''
          = log st' ++ EvPrint (name s +:+ ": Loading...") :: EvGetItems self :: evs)
  /\ (forall calls outs st'',
       get_leaves_series calls self st' = (outs, st'') ->
       Forall (fun out => out = Returned []) outs ->
       get_items_calls self (log st') + length calls
       <= get_items_calls self (log st'')).
Proof.
  intros Hs Hd Hg.
  pose proof (get_leaves_static_post n w self s force_update st st' [] Hs Hd Hg)
    as Hpost.
  split; [done|]. split.
  - intros m w'.
    destruct (get_leaves_load m w' self _ false st' Hpost Hd) as (out & evs & Hl);
      [done|].
    eexists out, evs, _. split; [exact Hl|]. reflexivity.
  - intros calls outs st'' Hser Hall.
    by apply (get_leaves_series_empty self calls _ st' outs st'' Hpost).
Qed.

(** The directory source of the empty directory [/empty]: after the
    first call, three more calls make three more enumerations. *)
Lemma C10_empty_cache_reloads_witness :
  exists st' out evs st'',
    get_leaves 1 (Desk.world false) 2 false Desk.state = (Returned [], st')
    /\ get_leaves 1 (Desk.world false) 2 false st' = (out, st'')
    /\ log st'' = log st' ++ EvPrint "empty: Loading..." :: EvGetItems 2 :: evs
    /\ get_items_calls 2 (log st') + 3
       <= get_items_calls 2
            (log (get_leaves_series
                    [(0, Desk.world false); (0, Desk.world false); (0, Desk.world false)]
                    2 st').2).
Proof.
  exists (get_leaves 1 (Desk.world false) 2 false Desk.state).2.
  assert (get_leaves 1 (Desk.world false) 2 false Desk.state
          = (Returned [], (get_leaves 1 (Desk.world false) 2 false Desk.state).2))
    as Hg by (vm_compute; reflexivity).
  destruct (C10_empty_cache_reloads 0 (Desk.world false) 2 (DirectorySource "/empty")
              false Desk.state _ eq_refl eq_refl Hg) as (_ & H & Hseries).
  destruct (H 0 (Desk.world false)) as (out & evs & st'' & H1 & H2).
  exists out, evs, st''. split; [exact Hg|]. split; [exact H1|]. split; [exact H2|].
  apply (Hseries
           [(0, Desk.world false); (0, Desk.world false); (0, Desk.world false)]
           [Returned []; Returned []; Returned []]).
  - vm_compute. reflexivity.
  - repeat constructor.
Defined.

(** ** Rescan *)

(** C8: on the catalog leaf of a dynamic source, [RescanSource] returns
    [None] and changes nothing: no [get_items] is run and the store is as
    it was.  On the catalog leaf of a source that is not dynamic it runs
    [get_leaves(force_update=True)], which announces a load and runs
    [get_items], whatever the cache holds.  And the catalog leaf offers
    [SearchInside] always and [RescanSource] only when its source is not
    dynamic. *)
Theorem C8_rescan (fuel : nat) (w : World) (src : loc) (nm : string)
    (s : Source) (st : State) :
  store st !! src = Some s ->
  (is_dynamic s = true ->
     activate fuel w RescanSource (SourceLeaf src nm) st = (Returned VNone, st))
  /\ (is_dynamic s = false ->
     exists r evs st',
       get_leaves (S fuel) w src true st = (r, st')
       /\ log st' = log st ++ EvPrint (name s +:+ ": Loading...") :: EvGetItems src :: evs
       /\ (activate (S fuel) w RescanSource (SourceLeaf src nm) st).2 = st'
       /\ forall items, r = Returned items ->
            activate (S fuel) w RescanSource (SourceLeaf src nm) st = (Returned VNone, st')
            /\ store st' !! src = Some (mkSource (name s) (kind s) (Some items)))
  /\ get_actions w (SourceLeaf src nm) st
     = (Returned (SearchInside :: if is_dynamic s then [] else [RescanSource]), st).
Proof.
  intros Hs. repeat split.
  - intros Hd. unfold activate. cbn [has_content negb Leaf_object].
    unfold bind, deref. by rewrite Hs, Hd.
  - intros Hd.
    destruct (get_leaves_load fuel w src s true st Hs Hd) as (r & evs & Hl).
    { by rewrite orb_true_r. }
    eexists r, evs, _. split; [exact Hl|]. split; [reflexivity|].
    assert (activate (S fuel) w RescanSource (SourceLeaf src nm) st
            = (match r with
               | Returned _ => Returned VNone
               | Raised e => Raised e
               | OutOfFuel => OutOfFuel
               | Dangling => Dangling
               end, (get_leaves (S fuel) w src true st).2)) as Ha.
    { unfold activate. cbn [has_content negb Leaf_object].
      unfold bind at 1. unfold deref at 1. rewrite Hs. cbn beta iota.
      rewrite Hd. cbn [negb]. unfold bind. rewrite Hl. by destruct r. }
    rewrite Ha, Hl. split; [done|].
    intros items ->. split; [done|]. cbn [store].
    apply list_lookup_insert_eq. by eapply lookup_lt_Some.
  - unfold get_actions, bind, deref. rewrite Hs. cbn beta iota.
    by destruct (is_dynamic s).
Qed.

(** The catalog leaves of the union (dynamic) and of the directory source
    of [/p1] (not dynamic). *)
Lemma C8_rescan_witness :
  activate 2 (Desk.world false) RescanSource (SourceLeaf 3 "Catalog") Desk.state
  = (Returned VNone, Desk.state)
  /\ get_actions (Desk.world false) (SourceLeaf 0 "p1") Desk.state
     = (Returned [SearchInside; RescanSource], Desk.state)
  /\ get_actions (Desk.world false) (SourceLeaf 3 "Catalog") Desk.state
     = (Returned [SearchInside], Desk.state).
Proof.
  split; [|split].
  - apply (proj1 (C8_rescan 2 (Desk.world false) 3 "Catalog" (MultiSource [0; 1])
                    Desk.state eq_refl)). reflexivity.
  - apply (proj2 (proj2 (C8_rescan 2 (Desk.world false) 0 "p1" (DirectorySource "/p1")
                           Desk.state eq_refl))).
  - apply (proj2 (proj2 (C8_rescan 2 (Desk.world false) 3 "Catalog" (MultiSource [0; 1])
                           Desk.state eq_refl))).
Defined.

(** A rescan of the directory source of [/p1] after a file has appeared. *)
Example rescan_p1 :
  exists st',
    activate 1 (Desk.world false) RescanSource (SourceLeaf 0 "p1") Desk.state
    = (Returned VNone, st')
    /\ log st' = [EvPrint "p1: Loading..."; EvGetItems 0; EvPrint " loaded 2 items"]
    /\ (cached_items <$> store st' !! 0)
       = Some (Some [FileLeaf "/p1/x" "x"; FileLeaf "/p1/y" "y"]).
Proof.
  exists (activate 1 (Desk.world false) RescanSource (SourceLeaf 0 "p1") Desk.state).2.
  repeat split; vm_compute; reflexivity.
Qed.

(** The items of a catalog of catalogs are the catalog leaves of its
    sources, in order, each named after its source. *)
Lemma SourcesSource_get_items (rec : loc -> M (list Leaf)) (w : World) (self : loc)
    (s : Source) (sources : list loc) (leaves : list Leaf) (st : State) :
  store st !! self = Some s ->
  kind s = KSourcesSource sources ->
  Forall2 (fun so leaf =>
             exists s', store st !! so = Some s' /\ leaf = SourceLeaf so (name s'))
          sources leaves ->
  get_items rec w self st = (Returned leaves, entered self st).
Proof.
  intros Hs Hk Hall. unfold get_items, bind at 1, emit. cbn beta iota.
  fold (entered self st). unfold bind at 1, deref at 1.
  change (store (entered self st)) with (store st). rewrite Hs. cbn beta iota.
  rewrite Hk. clear Hk.
  assert (forall st0, store st0 = store st ->
            mapM (fun so => let! s' := deref so in ret (SourceLeaf so (name s')))
                 sources st0 = (Returned leaves, st0)) as Hm.
  { induction Hall as [|so leaf sources leaves (s' & Hso & ->) Hall IH];
      intros st0 Hst0; [done|].
    cbn [mapM]. unfold bind at 1. unfold bind at 1. unfold deref at 1.
    rewrite Hst0, Hso. cbn beta iota. unfold ret at 1. unfold bind at 1.
    by rewrite (IH st0 Hst0). }
  by apply Hm.
Qed.

(** The catalog of the example desktop and the actions of its leaves. *)
Example catalog_leaves :
  exists st',
    get_leaves 1 (Desk.world false) 4 false Desk.state
    = (Returned [SourceLeaf 0 "p1"; SourceLeaf 1 "p2"; SourceLeaf 2 "empty";
                 SourceLeaf 3 "Catalog"], st')
    /\ mapM (get_actions (Desk.world false))
            [SourceLeaf 0 "p1"; SourceLeaf 1 "p2"; SourceLeaf 2 "empty";
             SourceLeaf 3 "Catalog"] st'
       = (Returned [[SearchInside; RescanSource]; [SearchInside; RescanSource];
                    [SearchInside; RescanSource]; [SearchInside]], st').
Proof.
  exists (get_leaves 1 (Desk.world false) 4 false Desk.state).2.
  split; vm_compute; reflexivity.
Qed.

(** ** The union of sources *)

(** Polling the sources in order is what the loop of
    [MultiSource.get_items] does. *)
Lemma mapM_polled (n : nat) (w : World) (sources : list loc) (st st' : State)
    (its : list (list Leaf)) :
  polled n w sources st its st' ->
  mapM (fun so => get_leaves n w so false) sources st = (Returned its, st').
Proof.
  induction 1 as [st|so sources st items st1 rest st2 Hg Hp IH]; [done|].
  cbn [mapM]. unfold bind at 1. rewrite Hg. unfold bind at 1. by rewrite IH.
Qed.

Lemma offset_S {A} (its : list (list A)) (i : nat) (li : list A) :
  its !! i = Some li -> offset its (S i) = offset its i + length li.
Proof.
  intros Hi. unfold offset. rewrite (take_S_r _ _ _ Hi), concat_app, length_app.
  simpl. by rewrite app_nil_r.
Qed.

Lemma offset_mono {A} (its : list (list A)) (i j : nat) :
  i <= j -> offset its i <= offset its j.
Proof.
  intros Hij. unfold offset.
  rewrite <- (take_drop i (take j its)). rewrite take_take.
  rewrite concat_app, length_app.
  replace (i `min` j) with i by lia. lia.
Qed.

(** Where the items of the source at index [i] are in the union. *)
Lemma concat_lookup_offset {A} (its : list (list A)) (i a : nat) (li : list A) (x : A) :
  its !! i = Some li -> li !! a = Some x ->
  concat its !! (offset its i + a) = Some x.
Proof.
  intros Hi Ha. unfold offset.
  replace (concat its) with (concat (take i its ++ li :: drop (S i) its))
    by (by rewrite take_drop_middle).
  rewrite concat_app, concat_cons.
  rewrite lookup_app_r by lia.
  replace (length (concat (take i its)) + a - length (concat (take i its))) with a by lia.
  by rewrite lookup_app_l by (by eapply lookup_lt_Some).
Qed.

(** In a concatenation every item of an earlier list comes before every
    item of a later list. *)
Lemma concat_in_order {A} (its : list (list A)) (i j a b : nat) (li lj : list A)
    (x y : A) :
  i < j ->
  its !! i = Some li -> its !! j = Some lj ->
  li !! a = Some x -> lj !! b = Some y ->
  exists p q, p < q /\ concat its !! p = Some x /\ concat its !! q = Some y.
Proof.
  intros Hij Hi Hj Ha Hb.
  exists (offset its i + a), (offset its j + b). split; [|split].
  - pose proof (offset_S its i li Hi) as HS.
    pose proof (offset_mono its (S i) j ltac:(lia)) as Hm.
    apply lookup_lt_Some in Ha. lia.
  - by apply concat_lookup_offset with li.
  - by apply concat_lookup_offset with lj.
Qed.

(** C6: a [MultiSource] is dynamic, and its enumeration polls its sources
    in list order and returns the concatenation, in that order, of what
    they return: every item of an earlier source comes before every item
    of a later one. *)
Theorem C6_MultiSource_enumeration (n : nat) (w : World) (self : loc) (s : Source)
    (sources : list loc) (force_update : bool) (st st' : State)
    (its : list (list Leaf)) :
  store st !! self = Some s ->
  kind s = KMultiSource sources ->
  polled n w sources (entered self st) its st' ->
  is_dynamic s = true
  /\ get_leaves (S n) w self force_update st = (Returned (concat its), st')
  /\ forall i j a b li lj x y,
       i < j -> its !! i = Some li -> its !! j = Some lj ->
       li !! a = Some x -> lj !! b = Some y ->
       exists p q, p < q /\ concat its !! p = Some x /\ concat its !! q = Some y.
Proof.
  intros Hs Hk Hp.
  assert (is_dynamic s = true) as Hd by (unfold is_dynamic; by rewrite Hk).
  split; [done|]. split.
  - cbn [get_leaves]. unfold bind at 1. unfold deref at 1. rewrite Hs.
    cbn beta iota. rewrite Hd.
    unfold get_items, bind at 1, emit. cbn beta iota.
    unfold bind at 1, deref. cbn [store]. rewrite Hs. cbn beta iota. rewrite Hk.
    unfold bind. fold (entered self st). by rewrite (mapM_polled n w sources _ st' its Hp).
  - intros. by eapply concat_in_order.
Qed.

(** The union of the directory sources of [/p1], which yields [x] and
    [y], and of [/p2], which yields [z]. *)
Lemma C6_MultiSource_enumeration_witness :
  exists st',
    get_leaves 2 (Desk.world false) 3 false Desk.state
    = (Returned [FileLeaf "/p1/x" "x"; FileLeaf "/p1/y" "y"; FileLeaf "/p2/z" "z"], st').
Proof.
  eexists.
  refine (proj1 (proj2
    (C6_MultiSource_enumeration 1 (Desk.world false) 3 (MultiSource [0; 1]) [0; 1]
       false Desk.state _
       [[FileLeaf "/p1/x" "x"; FileLeaf "/p1/y" "y"]; [FileLeaf "/p2/z" "z"]]
       eq_refl eq_refl _))).
  eapply polled_cons; [vm_compute; reflexivity|].
  eapply polled_cons; [vm_compute; reflexivity|].
  apply polled_nil.
Defined.

(** ** The budget *)

(** A larger budget does not change what a call returns. *)
Lemma mapM_mono {A B} (f g : A -> M B) (l : list A) :
  (forall x st out st', f x st = (out, st') -> out <> OutOfFuel -> g x st = (out, st')) ->
  forall st out st',
    mapM f l st = (out, st') -> out <> OutOfFuel -> mapM g l st = (out, st').
Proof.
  intros Hfg. induction l as [|x l IH]; intros st out st' Hm Hne; [done|].
  cbn [mapM] in *. unfold bind at 1 in Hm. unfold bind at 1.
  destruct (f x st) as [o1 st1] eqn:Hf.
  destruct o1 as [y| | |]; try (injection Hm as <- <-; by rewrite (Hfg _ _ _ _ Hf)).
  rewrite (Hfg _ _ _ _ Hf) by done.
  unfold bind at 1 in Hm. unfold bind at 1.
  destruct (mapM f l st1) as [o2 st2] eqn:Hl.
  destruct o2 as [ys| | |]; injection Hm as <- <-; by rewrite (IH _ _ _ Hl).
Qed.

Lemma get_items_mono (rec1 rec2 : loc -> M (list Leaf)) (w : World) (self : loc) :
  (forall so st out st', rec1 so st = (out, st') -> out <> OutOfFuel ->
                         rec2 so st = (out, st')) ->
  forall st out st',
    get_items rec1 w self st = (out, st') -> out <> OutOfFuel ->
    get_items rec2 w self st = (out, st').
Proof.
  intros Hrec st out st' Hg Hne. unfold get_items in *.
  unfold bind at 1 in Hg. unfold bind at 1. unfold emit in *. cbn beta iota in *.
  unfold bind at 1 in Hg. unfold bind at 1.
  destruct (deref self _) as [[s| | |] st1]; try done.
  destruct (kind s); try done.
  unfold bind in *.
  destruct (mapM rec1 sources st1) as [o2 st2] eqn:Hm.
  assert (o2 <> OutOfFuel) as Hne2 by (intros ->; by injection Hg as <- <-).
  by rewrite (mapM_mono rec1 rec2 sources Hrec _ _ _ Hm Hne2).
Qed.

Lemma get_leaves_mono (w : World) (n m : nat) :
  n <= m ->
  forall self force_update st out st',
    get_leaves n w self force_update st = (out, st') -> out <> OutOfFuel ->
    get_leaves m w self force_update st = (out, st').
Proof.
  revert m. induction n as [|n IH]; intros m Hnm self f st out st' Hg Hne.
  { by injection Hg as <- <-. }
  destruct m as [|m]; [lia|].
  assert (forall st out st',
            get_items (fun so => get_leaves n w so false) w self st = (out, st') ->
            out <> OutOfFuel ->
            get_items (fun so => get_leaves m w so false) w self st = (out, st'))
    as Hitems.
  { apply get_items_mono. intros so. apply IH. lia. }
  cbn [get_leaves] in *. unfold bind at 1 in Hg. unfold bind at 1.
  destruct (deref self st) as [[s| | |] st1]; try done.
  destruct (is_dynamic s); [by apply Hitems|].
  assert (forall k st2,
            (let! items := get_items (fun so => get_leaves n w so false) w self in k items) st2
            = (out, st') ->
            (let! items := get_items (fun so => get_leaves m w so false) w self in k items) st2
            = (out, st')) as Hbind.
  { intros k st2 Hl. unfold bind at 1 in Hl. unfold bind at 1.
    destruct (get_items (fun so => get_leaves n w so false) w self st2)
      as [o2 st3] eqn:Hi.
    assert (o2 <> OutOfFuel) as Hne2 by (intros ->; by injection Hl as <- <-).
    by rewrite (Hitems _ _ _ Hi Hne2). }
  destruct (cached_items s) as [cache|];
    [destruct (negb (Py.truthy_list cache) || f); [|done]|];
    unfold bind at 1 in Hg; unfold bind at 1;
    destruct (print _ st1) as [[[]| | |] st2]; try done;
    by apply Hbind.
Qed.

(** Sources that can be polled with some budget can be polled with any
    larger one, with the same result. *)
Lemma polled_mono (w : World) (n m : nat) (sources : list loc) (st st' : State)
    (its : list (list Leaf)) :
  n <= m -> polled n w sources st its st' -> polled m w sources st its st'.
Proof.
  intros Hnm. induction 1 as [st|so sources st items st1 rest st2 Hg Hp IH].
  - constructor.
  - econstructor; [|exact IH]. by apply (get_leaves_mono w n m Hnm).
Qed.

(** * Further properties *)

(** ** Strings *)

Lemma string_app_nil_l (t : string) : "" +:+ t = t.
Proof. reflexivity. Qed.

Lemma string_app_cons (a : ascii) (s t : string) :
  String a s +:+ t = String a (s +:+ t).
Proof. reflexivity. Qed.

Lemma string_app_length (s t : string) :
  String.length (s +:+ t) = String.length s + String.length t.
Proof.
  induction s as [|a s IH]; [done|].
  rewrite string_app_cons. simpl. by rewrite IH.
Qed.

(** Appending the same end to two strings keeps them apart. *)
Lemma string_app_inj_r (s1 s2 t : string) : s1 +:+ t = s2 +:+ t -> s1 = s2.
Proof.
  revert s2. induction s1 as [|a s1 IH]; intros [|b s2] H.
  - done.
  - apply (f_equal String.length) in H.
    rewrite string_app_nil_l, string_app_cons in H. simpl in H.
    rewrite string_app_length in H. lia.
  - apply (f_equal String.length) in H.
    rewrite string_app_nil_l, string_app_cons in H. simpl in H.
    rewrite string_app_length in H. lia.
  - rewrite !string_app_cons in H. injection H as -> H. f_equal. by apply IH.
Qed.

Lemma truthy_app_r (s t : string) : Py.truthy t = true -> Py.truthy (s +:+ t) = true.
Proof. destruct s; [by rewrite string_app_nil_l | by rewrite string_app_cons]. Qed.

Lemma truthy_app_l (s t : string) : Py.truthy s = true -> Py.truthy (s +:+ t) = true.
Proof. destruct s; [done | by rewrite string_app_cons]. Qed.

(** ** More on identity *)

(** X1: file sources built from the same paths in any order and with the
    same depth are equal and have the same hash value, whatever each has
    cached: the order of the arguments is no part of the identity. *)
Theorem X1_FileSource_any_order (hash : string -> Z) (l1 l2 : list string)
    (depth : Z) (s1 s2 : Source) (c1 c2 : option (list Leaf)) :
  l1 ≡ₚ l2 ->
  FileSource l1 depth = Returned s1 ->
  FileSource l2 depth = Returned s2 ->
  __eq__ (mkSource (name s1) (kind s1) c1)
         (ObjSource (mkSource (name s2) (kind s2) c2)) = true
  /\ __hash__ hash (mkSource (name s1) (kind s1) c1)
     = __hash__ hash (mkSource (name s2) (kind s2) c2).
Proof.
  intros Hp H1 H2.
  destruct l1 as [|a l1]; [done|]. destruct l2 as [|b l2]; [done|].
  injection H1 as <-. injection H2 as <-.
  assert (__eq__ (mkSource (name (Source_init "FileSource"
                    (Some (if bool_decide (1 < length (a :: l1))
                           then Py.basename a +:+ " et al" else Py.basename a))
                    (KFileSource (a :: l1) depth)))
                    (KFileSource (a :: l1) depth) c1)
                 (ObjSource (mkSource (name (Source_init "FileSource"
                    (Some (if bool_decide (1 < length (b :: l2))
                           then Py.basename b +:+ " et al" else Py.basename b))
                    (KFileSource (b :: l2) depth)))
                    (KFileSource (b :: l2) depth) c2)) = true) as Heq.
  { unfold __eq__. apply andb_true_intro.
    split; apply bool_decide_eq_true_2; [reflexivity|].
    by apply (FileSource_repr_Permutation (a :: l1) (b :: l2) depth). }
  split; [exact Heq | by apply eq_hash].
Qed.

(** Three directories, given in two orders. *)
Lemma X1_FileSource_any_order_witness :
  exists s1 s2,
    FileSource ["/usr"; "/home"; "/opt"] 3 = Returned s1
    /\ FileSource ["/opt"; "/usr"; "/home"] 3 = Returned s2
    /\ __eq__ s1 (ObjSource s2) = true
    /\ __hash__ (fun s => Z.of_nat (String.length s)) s1
       = __hash__ (fun s => Z.of_nat (String.length s)) s2.
Proof.
  exists (mkSource "usr et al" (KFileSource ["/usr"; "/home"; "/opt"] 3) None),
         (mkSource "opt et al" (KFileSource ["/opt"; "/usr"; "/home"] 3) None).
  split; [reflexivity|]. split; [reflexivity|].
  apply (X1_FileSource_any_order (fun s => Z.of_nat (String.length s))
           ["/usr"; "/home"; "/opt"] ["/opt"; "/usr"; "/home"] 3
           (mkSource "usr et al" (KFileSource ["/usr"; "/home"; "/opt"] 3) None)
           (mkSource "opt et al" (KFileSource ["/opt"; "/usr"; "/home"] 3) None)
           None None).
  - change (["/usr"; "/home"] ++ ["/opt"] ≡ₚ ["/opt"] ++ ["/usr"; "/home"]).
    apply Permutation_app_comm.
  - reflexivity.
  - reflexivity.
Defined.

(** The representation of a source of any class but [FileSource]. *)
Lemma repr_by_name (s : Source) :
  Source_class s <> "FileSource" ->
  __repr__ (ObjSource s) = "<" +:+ Source_class s +:+ " " +:+ name s +:+ ">".
Proof. destruct s as [n k c]. by destruct k. Qed.

(** X2: sources of different classes are never equal; two sources of the
    same class, other than [FileSource], are equal exactly when they have
    the same name, whatever else they were built from. *)
Theorem X2_eq_by_class_and_name (s1 s2 : Source) :
  (Source_class s1 <> Source_class s2 -> __eq__ s1 (ObjSource s2) = false)
  /\ (Source_class s1 = Source_class s2 -> Source_class s1 <> "FileSource" ->
      (__eq__ s1 (ObjSource s2) = true <-> name s1 = name s2)).
Proof.
  split.
  - intros Hc. unfold __eq__. apply andb_false_intro1.
    by apply bool_decide_eq_false_2.
  - intros Hc Hf. unfold __eq__.
    rewrite (bool_decide_eq_true_2 _ Hc). cbn [andb].
    rewrite bool_decide_eq_true.
    rewrite (repr_by_name s1 Hf), (repr_by_name s2) by congruence.
    rewrite Hc. split.
    + intros H. apply (inj (String.app _)) in H. apply (inj (String.app _)) in H.
      apply (inj (String.app _)) in H. by apply string_app_inj_r in H.
    + by intros ->.
Qed.

(** Any two unions are equal, whatever their sources: the name of a
    [MultiSource] is always ["Catalog"]. *)
Lemma X2_eq_by_class_and_name_witness :
  __eq__ (MultiSource [0]) (ObjSource (MultiSource [1; 2])) = true.
Proof.
  apply (proj2 (X2_eq_by_class_and_name (MultiSource [0]) (MultiSource [1; 2])));
    [reflexivity | discriminate | reflexivity].
Defined.

(** A false name is replaced by the name of the class. *)
Lemma init_name_truthy (cls : string) (n : option string) :
  Py.truthy cls = true -> Py.truthy (init_name cls n) = true.
Proof.
  intros Hc. unfold init_name. destruct n as [n|]; [|done].
  by destruct (Py.truthy n) eqn:Hn.
Qed.

(** X3: no object has an empty name: every leaf, every action and every
    source that a constructor returns has a name that is true. *)
Theorem X3_name_never_empty :
  (forall l : Leaf, Py.truthy (Leaf_name l) = true)
  /\ (forall a : Action, Py.truthy (Action_name a) = true)
  /\ (forall n, Py.truthy (name (BaseSource n)) = true)
  /\ (forall dirlist depth s,
        FileSource dirlist depth = Returned s -> Py.truthy (name s) = true)
  /\ (forall dir, Py.truthy (name (DirectorySource dir)) = true)
  /\ (forall sources n, Py.truthy (name (SourcesSource sources n)) = true)
  /\ (forall sources, Py.truthy (name (MultiSource sources)) = true)
  /\ Py.truthy (name AppSource) = true
  /\ Py.truthy (name RecentsSource) = true
  /\ Py.truthy (name PlacesSource) = true.
Proof.
  repeat split.
  - intros [o n| |p n|s n|item|u n]; try (by apply init_name_truthy).
    unfold Leaf_name, AppLeaf_name.
    destruct (negb (bool_decide (di_name item = di_loc_name item))
              || negb (Py.truthy_opt (di_loc_name item))) eqn:Hc.
    + apply truthy_app_r. by apply truthy_app_l.
    + apply orb_false_elim in Hc as [H1 H2].
      apply negb_false_iff, bool_decide_eq_true in H1.
      apply negb_false_iff in H2. rewrite H1.
      by destruct (di_loc_name item).
  - intros a. destruct a; by apply init_name_truthy.
  - intros n. by apply init_name_truthy.
  - intros [|d0 dirlist] depth s H; [done|]. injection H as <-.
    by apply init_name_truthy.
  - intros dir. by apply init_name_truthy.
  - intros sources n. by apply init_name_truthy.
Qed.

(** ** What an enumeration may change *)

Lemma evolves_refl (st : State) : evolves st st.
Proof.
  split; [done|]. split.
  - intros l [n k c] Hl. by exists c.
  - exists []. by rewrite app_nil_r.
Qed.

Lemma evolves_trans (st1 st2 st3 : State) :
  evolves st1 st2 -> evolves st2 st3 -> evolves st1 st3.
Proof.
  intros (Hlen1 & Hobj1 & evs1 & Hlog1) (Hlen2 & Hobj2 & evs2 & Hlog2).
  split; [congruence|]. split.
  - intros l s Hl. destruct (Hobj1 l s Hl) as (c1 & Hl1 & Hd1).
    destruct (Hobj2 l _ Hl1) as (c2 & Hl2 & Hd2). cbn [name kind] in Hl2.
    exists c2. split; [done|]. intros Hd. rewrite <- (Hd1 Hd). by apply Hd2.
  - exists (evs1 ++ evs2). by rewrite Hlog2, Hlog1, app_assoc.
Qed.

Lemma evolves_emit (e : Event) (st : State) : evolves st (emit e st).2.
Proof.
  split; [done|]. split.
  - intros l [n k c] Hl. by exists c.
  - by exists [e].
Qed.

Lemma evolves_deref (l : loc) (st : State) : evolves st (deref l st).2.
Proof. unfold deref. destruct (store st !! l); apply evolves_refl. Qed.

(** Sequencing: what the first step leaves, the rest starts from. *)
Lemma evolves_bind {A B} (m : M A) (f : A -> M B) (st : State) :
  evolves st (m st).2 ->
  (forall a st1, m st = (Returned a, st1) -> evolves st1 (f a st1).2) ->
  evolves st (bind m f st).2.
Proof.
  intros Hm Hf. unfold bind. destruct (m st) as [[a| | |] st1] eqn:E; try done.
  eapply evolves_trans; [exact Hm|]. by apply Hf.
Qed.

Lemma evolves_mapM {A B} (f : A -> M B) (l : list A) :
  (forall x st, evolves st (f x st).2) ->
  forall st, evolves st (mapM f l st).2.
Proof.
  intros Hf. induction l as [|x l IH]; intros st; [apply evolves_refl|].
  cbn [mapM]. apply evolves_bind; [apply Hf|]. intros y st1 _.
  apply evolves_bind; [apply IH|]. intros ys st2 _. apply evolves_refl.
Qed.

(** Storing a cache in a source that is not dynamic. *)
Lemma evolves_set_cached_items (l : loc) (s : Source) (items : list Leaf)
    (st : State) :
  store st !! l = Some s -> is_dynamic s = false ->
  evolves st (set_cached_items l items st).2.
Proof.
  intros Hl Hd. unfold set_cached_items. rewrite Hl. cbn [snd].
  split; [apply length_insert|]. split.
  - intros l' s' Hl'. cbn [store]. destruct (decide (l' = l)) as [Heq|Hne].
    + subst l'. rewrite Hl in Hl'. injection Hl' as <-. exists (Some items).
      split; [|congruence].
      apply list_lookup_insert_eq. by eapply lookup_lt_Some.
    + rewrite list_lookup_insert_ne by done. exists (cached_items s').
      by destruct s'.
  - exists []. by rewrite app_nil_r.
Qed.

(** The body of [get_items], after its entry has been recorded. *)
Lemma evolves_get_items_body (rec : loc -> M (list Leaf)) (w : World) (self : loc)
    (st : State) :
  (forall so st0, evolves st0 (rec so st0).2) ->
  evolves (entered self st) (get_items rec w self st).2.
Proof.
  intros Hrec. unfold get_items, bind at 1, emit. cbn beta iota.
  fold (entered self st).
  apply evolves_bind; [apply evolves_deref|]. intros s st1 _.
  destruct (kind s); try apply evolves_refl.
  - apply evolves_mapM. intros so st0.
    apply evolves_bind; [apply evolves_deref|]. intros; apply evolves_refl.
  - apply evolves_bind; [by apply evolves_mapM|]. intros; apply evolves_refl.
  - apply evolves_bind; [apply evolves_emit|]. intros; apply evolves_refl.
  - destruct (negb _); apply evolves_refl.
Qed.

Lemma evolves_get_items (rec : loc -> M (list Leaf)) (w : World) (self : loc)
    (st : State) :
  (forall so st0, evolves st0 (rec so st0).2) ->
  evolves st (get_items rec w self st).2.
Proof.
  intros Hrec. eapply evolves_trans; [|by apply evolves_get_items_body].
  apply (evolves_emit (EvGetItems self) st).
Qed.

(** Whatever [get_leaves] is called on, with whatever budget, and however
    it ends, the state it leaves comes after the one it started from. *)
Lemma evolves_get_leaves (fuel : nat) (w : World) :
  forall self force_update st,
    evolves st (get_leaves fuel w self force_update st).2.
Proof.
  induction fuel as [|n IH]; intros self f st; [apply evolves_refl|].
  assert (forall so st0, evolves st0 (get_leaves n w so false st0).2) as Hrec
    by (intros; apply IH).
  cbn [get_leaves]. unfold bind at 1. unfold deref at 1.
  destruct (store st !! self) as [s|] eqn:Hs; [|apply evolves_refl].
  cbn beta iota. destruct (is_dynamic s) eqn:Hd; [by apply evolves_get_items|].
  assert (evolves st
    ((print (__str__ (ObjSource s) +:+ ": Loading...") ;;;
      let! items := get_items (fun so => get_leaves n w so false) w self in
      let cache := aslist items in
      set_cached_items self cache ;;;
      print (" loaded " +:+ Py.fmt_d (Z.of_nat (length cache)) +:+ " items") ;;;
      ret cache) st).2) as Hload.
  { apply evolves_bind; [apply evolves_emit|]. intros [] st1 H1.
    injection H1 as <-.
    set (st1 := mkState (store st) _).
    apply evolves_bind; [by apply evolves_get_items|]. intros items st2 H2.
    pose proof (evolves_get_items (fun so => get_leaves n w so false) w self st1 Hrec)
      as Hev. rewrite H2 in Hev. cbn [snd] in Hev.
    destruct Hev as (_ & Hobj & _).
    destruct (Hobj self s Hs) as (c & Hc & _).
    apply evolves_bind.
    - by apply (evolves_set_cached_items self _ _ st2 Hc).
    - intros [] st3 _. apply evolves_bind; [apply evolves_emit|].
      intros; apply evolves_refl. }
  destruct (cached_items s) as [cache|]; [|exact Hload].
  destruct (negb (Py.truthy_list cache) || f); [exact Hload | apply evolves_refl].
Qed.

(** X4: an enumeration never changes what a source is.  After any
    [get_leaves], on any source, with any budget and however it ends, the
    store has as many objects as before and every source has the name and
    the attributes it had, hence the same representation, so that it is
    equal to what it was equal to and keeps its hash value; only
    [cached_items] may have changed, and that of a dynamic source has
    not. *)
Theorem X4_enumeration_keeps_identity (fuel : nat) (w : World) (self : loc)
    (force_update : bool) (st : State) (l : loc) (s : Source) :
  store st !! l = Some s ->
  exists c,
    store (get_leaves fuel w self force_update st).2 !! l
    = Some (mkSource (name s) (kind s) c)
    /\ (is_dynamic s = true -> c = cached_items s)
    /\ __repr__ (ObjSource (mkSource (name s) (kind s) c)) = __repr__ (ObjSource s)
    /\ length (store (get_leaves fuel w self force_update st).2) = length (store st).
Proof.
  intros Hl.
  destruct (evolves_get_leaves fuel w self force_update st) as (Hlen & Hobj & _).
  destruct (Hobj l s Hl) as (c & Hc & Hd).
  exists c. repeat split; try done. destruct s as [n k c0]. apply repr_cached_items.
Qed.

(** The union of the example desktop is read: the directory source of
    [/p1] below it is as it was, but for its cache. *)
Lemma X4_enumeration_keeps_identity_witness :
  exists c,
    store (get_leaves 2 (Desk.world false) 3 false Desk.state).2 !! 0
    = Some (mkSource (name (DirectorySource "/p1")) (kind (DirectorySource "/p1")) c)
    /\ (is_dynamic (DirectorySource "/p1") = true
        -> c = cached_items (DirectorySource "/p1"))
    /\ __repr__ (ObjSource (mkSource (name (DirectorySource "/p1"))
                              (kind (DirectorySource "/p1")) c))
       = __repr__ (ObjSource (DirectorySource "/p1"))
    /\ length (store (get_leaves 2 (Desk.world false) 3 false Desk.state).2)
       = length (store Desk.state).
Proof.
  apply (X4_enumeration_keeps_identity 2 (Desk.world false) 3 false Desk.state 0
           (DirectorySource "/p1")).
  reflexivity.
Defined.

(** X5: loading a source that is not dynamic touches no other object of
    the store: whatever the call does to the source itself, every other
    location holds afterwards what it held before. *)
Theorem X5_static_load_frame (n : nat) (w : World) (self : loc) (s : Source)
    (force_update : bool) (st : State) (l : loc) :
  store st !! self = Some s ->
  is_dynamic s = false ->
  l <> self ->
  store (get_leaves (S n) w self force_update st).2 !! l = store st !! l.
Proof.
  intros Hs Hd Hne.
  destruct (negb (Py.truthy_list (default [] (cached_items s))) || force_update)
    eqn:Hc.
  - destruct (get_leaves_load n w self s force_update st Hs Hd Hc)
      as (out & evs & Hl).
    rewrite Hl. cbn [snd store].
    destruct out; try done. by rewrite list_lookup_insert_ne.
  - apply orb_false_elim in Hc as [Hc ->].
    destruct (cached_items s) as [cache|] eqn:Hci; [|done].
    destruct cache as [|x cache]; [done|].
    by rewrite (get_leaves_cached n w self s (x :: cache) st).
Qed.

(** The directory source of [/p1] is loaded; that of [/p2] is as it
    was. *)
Lemma X5_static_load_frame_witness :
  store (get_leaves 1 (Desk.world false) 0 true Desk.state).2 !! 1
  = store Desk.state !! 1.
Proof.
  apply (X5_static_load_frame 0 (Desk.world false) 0 (DirectorySource "/p1") true
           Desk.state 1); [reflexivity | reflexivity | discriminate].
Defined.

(** X6: a dynamic source never caches.  Every [get_leaves] on it, forced
    or not, enters [get_items]; the flag [force_update] makes no
    difference; and the source itself is afterwards exactly as it was, its
    [cached_items] included. *)
Theorem X6_dynamic_never_caches (n : nat) (w : World) (self : loc) (s : Source)
    (force_update : bool) (st : State) :
  store st !! self = Some s ->
  is_dynamic s = true ->
  (exists evs,
     log (get_leaves (S n) w self force_update st).2
     = log st ++ EvGetItems self :: evs)
  /\ store (get_leaves (S n) w self force_update st).2 !! self = Some s
  /\ get_leaves (S n) w self true st = get_leaves (S n) w self false st.
Proof.
  intros Hs Hd. split; [|split].
  - cbn [get_leaves]. unfold bind at 1, deref at 1. rewrite Hs. cbn beta iota.
    rewrite Hd.
    destruct (evolves_get_items_body (fun so => get_leaves n w so false) w self st)
      as (_ & _ & evs & Hlog).
    { intros. apply evolves_get_leaves. }
    exists evs. rewrite Hlog. unfold entered. cbn [log].
    by rewrite <- app_assoc.
  - destruct (evolves_get_leaves (S n) w self force_update st) as (_ & Hobj & _).
    destruct (Hobj self s Hs) as (c & Hc & Hcd).
    rewrite Hc, (Hcd Hd). by destruct s.
  - cbn [get_leaves]. unfold bind, deref. rewrite Hs. cbn beta iota. by rewrite Hd.
Qed.

(** The union of the example desktop. *)
Lemma X6_dynamic_never_caches_witness :
  (exists evs,
     log (get_leaves 2 (Desk.world false) 3 false Desk.state).2
     = log Desk.state ++ EvGetItems 3 :: evs)
  /\ store (get_leaves 2 (Desk.world false) 3 false Desk.state).2 !! 3
     = Some (MultiSource [0; 1])
  /\ get_leaves 2 (Desk.world false) 3 true Desk.state
     = get_leaves 2 (Desk.world false) 3 false Desk.state.
Proof.
  apply (X6_dynamic_never_caches 1 (Desk.world false) 3 (MultiSource [0; 1]) false
           Desk.state); reflexivity.
Defined.

(** ** More on parents *)

(** X7: on a directory source whose directory is not the same file as
    its parent, [get_parent] makes a new [DirectorySource] of the
    normalized parent path, with no cache, at a new location, and leaves
    every object of the store and the log as they were; when
    [os.path.samefile] cannot stat the paths its [OSError] comes out of
    [get_parent], and nothing is made. *)
Theorem X7_get_parent_of_DirectorySource (w : World) (self : loc) (s : Source)
    (directory : string) (deep : bool) (st : State) :
  store st !! self = Some s ->
  kind s = KDirectorySource directory deep ->
  (samefile w directory (_parent_path directory) = Some false ->
     get_parent w self st
     = (Returned (VSource (length (store st))),
        mkState (store st ++ [DirectorySource (_parent_path directory)]) (log st))
     /\ cached_items (DirectorySource (_parent_path directory)) = None
     /\ forall (l : loc) s0, store st !! l = Some s0 ->
          (store st ++ [DirectorySource (_parent_path directory)]) !! l = Some s0)
  /\ (samefile w directory (_parent_path directory) = None ->
     get_parent w self st = (Raised OSError, st)).
Proof.
  intros Hs Hk. split; intros Hsame.
  - split; [|split; [done|]].
    + unfold get_parent, bind at 1, deref at 1. rewrite Hs. cbn beta iota.
      rewrite Hk. unfold bind at 1, has_parent. rewrite Hk, Hsame. done.
    + intros l s0 Hl. rewrite lookup_app_l; [done|]. by eapply lookup_lt_Some.
  - unfold get_parent, bind at 1, deref at 1. rewrite Hs. cbn beta iota.
    rewrite Hk. unfold bind at 1, has_parent. by rewrite Hk, Hsame.
Qed.

(** The directory source of [/p1], in the example desktop and in one
    where nothing can be stat'ed. *)
Lemma X7_get_parent_of_DirectorySource_witness :
  get_parent (Desk.world false) 0 Desk.state
  = (Returned (VSource 5), mkState (Desk.sources ++ [DirectorySource "/"]) [])
  /\ get_parent (mkWorld (fun _ => false) (fun _ => false) (fun _ _ => None)
                   (fun _ => false) (fun _ => false) (fun p => p) (fun _ => None)
                   (fun _ => []) (fun _ _ _ => []) []
                   (new_desktop_item (Desk.world false))
                   (fun _ _ => None) (fun _ _ => None) (fun _ _ => None)
                   (fun _ _ => None) (fun _ => None)
                   (fun p => p) (fun p => p) (fun p => p) (fun _ => None)
                   (fun _ => "") (fun _ => None) (fun _ => [])
                   (fun _ => None) (fun _ => None) [])
                0 Desk.state
     = (Raised OSError, Desk.state).
Proof.
  split.
  - apply (proj1 (X7_get_parent_of_DirectorySource (Desk.world false) 0
                    (DirectorySource "/p1") "/p1" false Desk.state eq_refl eq_refl)).
    reflexivity.
  - apply (proj2 (X7_get_parent_of_DirectorySource _ 0
                    (DirectorySource "/p1") "/p1" false Desk.state eq_refl eq_refl)).
    reflexivity.
Defined.

Lemma string_app_assoc (s t u : string) : (s +:+ t) +:+ u = s +:+ (t +:+ u).
Proof.
  induction s as [|a s IH]; [done|]. rewrite !string_app_cons. by rewrite IH.
Qed.

Lemma slash_app (x : string) : "/" +:+ x = String "/" x.
Proof. reflexivity. Qed.

Lemma join_snoc (sep : string) (l : list string) (x : string) :
  l <> [] -> Py.join sep (l ++ [x]) = Py.join sep l +:+ sep +:+ x.
Proof.
  induction l as [|y l IH]; [done|]. intros _.
  destruct l as [|z l]; [done|].
  change (Py.join sep ((y :: z :: l) ++ [x]))
    with (y +:+ sep +:+ Py.join sep ((z :: l) ++ [x])).
  rewrite IH by done.
  change (Py.join sep (y :: z :: l)) with (y +:+ sep +:+ Py.join sep (z :: l)).
  by rewrite !string_app_assoc.
Qed.

Lemma join_starts (sep : string) (a : ascii) (r : string) (l : list string) :
  exists t, Py.join sep (String a r :: l) = String a t.
Proof.
  destruct l as [|y l]; [by exists r|].
  exists (r +:+ sep +:+ Py.join sep (y :: l)). reflexivity.
Qed.

Lemma clean_inv (c : string) :
  clean c = true ->
  Py.truthy c = true /\ Py.has_slash c = false /\ c <> "." /\ c <> "..".
Proof.
  unfold clean. intros H.
  apply andb_prop in H as [H H4]. apply andb_prop in H as [H H3].
  apply andb_prop in H as [H1 H2].
  apply negb_true_iff in H2. apply negb_true_iff, bool_decide_eq_false in H3.
  apply negb_true_iff, bool_decide_eq_false in H4. done.
Qed.

Lemma split_no_slash (c : string) :
  Py.has_slash c = false -> Py.split "/" c = [c].
Proof.
  induction c as [|a c IH]; [done|]. cbn [Py.has_slash Py.split].
  destruct (decide (a = "/"%char)); [done|]. intros H. by rewrite (IH H).
Qed.

Lemma split_app_slash (c s : string) :
  Py.has_slash c = false ->
  Py.split "/" (c +:+ "/" +:+ s) = c :: Py.split "/" s.
Proof.
  induction c as [|a c IH].
  - intros _. rewrite string_app_nil_l, slash_app. cbn [Py.split].
    by destruct (decide ("/"%char = "/"%char)).
  - cbn [Py.has_slash]. rewrite string_app_cons. cbn [Py.split].
    destruct (decide (a = "/"%char)); [done|]. intros H. by rewrite (IH H).
Qed.

Lemma split_join (l : list string) :
  Forall (fun c => Py.has_slash c = false) l -> l <> [] ->
  Py.split "/" (Py.join "/" l) = l.
Proof.
  induction 1 as [|c l Hc Hl IH]; [done|]. intros _.
  destruct l as [|d l]; [by apply split_no_slash|].
  change (Py.join "/" (c :: d :: l)) with (c +:+ "/" +:+ Py.join "/" (d :: l)).
  rewrite split_app_slash by done. by rewrite IH.
Qed.

Lemma normpath_step_clean (k : nat) (stack : list string) (c : string) :
  clean c = true -> Py.normpath_step k stack c = c :: stack.
Proof.
  intros (Ht & _ & Hd & Hdd)%clean_inv. unfold Py.normpath_step.
  rewrite (bool_decide_eq_false_2 (c = "")) by (by destruct c).
  rewrite (bool_decide_eq_false_2 (c = ".")) by done.
  by rewrite (bool_decide_eq_false_2 (c = "..")) by done.
Qed.

Lemma fold_normpath_step_clean (k : nat) (l stack : list string) :
  Forall (fun c => clean c = true) l ->
  fold_left (Py.normpath_step k) l stack = rev l ++ stack.
Proof.
  intros Hl. revert stack. induction Hl as [|c l Hc Hl IH]; intros stack; [done|].
  cbn [fold_left rev]. rewrite normpath_step_clean by done.
  by rewrite IH, <- app_assoc.
Qed.

Lemma ends_with_slash_no_slash (c : string) :
  Py.has_slash c = false -> Py.ends_with_slash c = false.
Proof.
  induction c as [|a c IH]; [done|]. cbn [Py.has_slash].
  destruct (decide (a = "/"%char)) as [|Hne]; [done|]. intros H.
  cbn [Py.ends_with_slash]. destruct c; [by apply bool_decide_eq_false_2 | by apply IH].
Qed.

Lemma ends_with_slash_app (s c : string) :
  Py.truthy c = true -> Py.ends_with_slash (s +:+ c) = Py.ends_with_slash c.
Proof.
  intros Hc. induction s as [|a s IH]; [done|]. rewrite string_app_cons.
  cbn [Py.ends_with_slash].
  destruct (s +:+ c) eqn:E; [|done].
  pose proof (truthy_app_r s c Hc) as Ht. by rewrite E in Ht.
Qed.

Lemma startswith_nil (s : string) : Py.startswith "" s = true.
Proof. by destruct s. Qed.

Lemma startswith_cons (a b : ascii) (s1 s2 : string) :
  Py.startswith (String a s1) (String b s2)
  = if Ascii.ascii_dec a b then Py.startswith s1 s2 else false.
Proof. reflexivity. Qed.

Lemma path_join_pardir (l : list string) (c : string) :
  clean c = true ->
  Py.path_join (abs_path (l ++ [c])) Py.pardir
  = "/" +:+ Py.join "/" ((l ++ [c]) ++ [".."]).
Proof.
  intros (Ht & Hs & _ & _)%clean_inv. unfold Py.path_join, Py.pardir, abs_path.
  change (Py.startswith "/" "..") with false. cbn match.
  rewrite (truthy_app_l "/" _ eq_refl). cbn [negb orb].
  assert (exists pre, Py.join "/" (l ++ [c]) = pre +:+ c) as [pre Hpre].
  { destruct l as [|x l]; [by exists ""|].
    exists (Py.join "/" (x :: l) +:+ "/").
    by rewrite join_snoc, string_app_assoc. }
  assert (Py.ends_with_slash ("/" +:+ Py.join "/" (l ++ [c])) = false) as ->.
  { rewrite Hpre, <- string_app_assoc, ends_with_slash_app by done.
    by apply ends_with_slash_no_slash. }
  rewrite (join_snoc "/" (l ++ [c]) "..") by (by destruct l).
  by rewrite !string_app_assoc.
Qed.

(** The parent of [/c1/.../cn/c] is [/c1/.../cn]. *)
Lemma parent_path_abs (comps : list string) (c : string) :
  Forall (fun c => clean c = true) (comps ++ [c]) ->
  _parent_path (abs_path (comps ++ [c])) = abs_path comps.
Proof.
  intros Hall. unfold _parent_path.
  pose proof Hall as Hall'. apply Forall_app in Hall' as [Hcomps Hc].
  apply Forall_inv in Hc.
  rewrite path_join_pardir by done.
  destruct (clean_inv c Hc) as (_ & _ & _ & Hcdd).
  assert (Forall (fun c => Py.has_slash c = false) ((comps ++ [c]) ++ [".."])) as Hns.
  { apply Forall_app. split; [|by repeat constructor].
    eapply Forall_impl; [exact Hall|]. intros x Hx. by apply clean_inv in Hx as (_ & ? & _). }
  assert (exists a t, a <> "/"%char
                      /\ Py.join "/" ((comps ++ [c]) ++ [".."]) = String a t)
    as (a & t & Ha & Hjoin).
  { destruct (comps ++ [c]) as [|x l0] eqn:E; [by destruct comps|].
    apply Forall_cons in Hall as [Hx _].
    apply clean_inv in Hx as (Hxt & Hxs & _).
    destruct x as [|a r]; [done|]. cbn [Py.has_slash] in Hxs.
    destruct (decide (a = "/"%char)) as [|Hne]; [done|].
    destruct (join_starts "/" a r (l0 ++ [".."])) as [t Ht]. by exists a, t. }
  unfold Py.normpath. rewrite slash_app.
  rewrite (bool_decide_eq_false_2 (String "/" _ = "")) by done.
  assert (Py.startswith "/" (String "/" (Py.join "/" ((comps ++ [c]) ++ [".."]))) = true)
    as ->.
  { rewrite startswith_cons, startswith_nil.
    by destruct (Ascii.ascii_dec "/" "/"). }
  assert (Py.startswith "//" (String "/" (Py.join "/" ((comps ++ [c]) ++ [".."]))) = false)
    as ->.
  { rewrite Hjoin, !startswith_cons.
    destruct (Ascii.ascii_dec "/" "/"); [|done].
    destruct (Ascii.ascii_dec "/" a) as [E|]; [by destruct Ha|done]. }
  cbn [andb].
  assert (Py.split "/" (String "/" (Py.join "/" ((comps ++ [c]) ++ [".."])))
          = "" :: (comps ++ [c]) ++ [".."]) as ->.
  { cbn [Py.split]. destruct (decide ("/"%char = "/"%char)); [|done].
    rewrite split_join; [done|done|by destruct comps; cbn]. }
  cbn [fold_left].
  change (Py.normpath_step 1 [] "") with (@nil string).
  rewrite fold_left_app, (fold_normpath_step_clean 1 (comps ++ [c]) []) by done.
  rewrite app_nil_r, rev_app_distr. cbn [rev app fold_left].
  assert (Py.normpath_step 1 (c :: rev comps) ".." = rev comps) as ->.
  { unfold Py.normpath_step. cbn [head tail].
    rewrite (bool_decide_eq_false_2 (Some c = Some "..")) by congruence.
    reflexivity. }
  rewrite rev_involutive. change (Py.slashes 1) with "/".
  rewrite (truthy_app_l "/" _ eq_refl). reflexivity.
Qed.

(** The root is its own parent. *)
Lemma parent_path_root : _parent_path (abs_path []) = abs_path [].
Proof. vm_compute. reflexivity. Qed.

(** X8: parents end at the root.  The parent path of the directory
    [/c1/.../cn], written with clean components, is [/c1/.../c(n-1)]: one
    component less, so that [n] steps from a directory [n] levels deep
    reach [/], which is its own parent path. *)
Theorem X8_parent_path_chain (comps : list string) :
  Forall (fun c => clean c = true) comps ->
  _parent_path (abs_path comps) = abs_path (removelast comps)
  /\ Nat.iter (length comps) _parent_path (abs_path comps) = abs_path []
  /\ _parent_path (abs_path []) = abs_path [].
Proof.
  intros Hall. split; [|split; [|apply parent_path_root]].
  - destruct comps as [|x l] using rev_ind; [apply parent_path_root|].
    rewrite removelast_last. by apply parent_path_abs.
  - induction comps as [|x l IH] using rev_ind; [done|].
    rewrite length_app. cbn [length]. rewrite Nat.add_1_r.
    rewrite Nat.iter_succ_r, parent_path_abs by done.
    apply IH. by apply Forall_app in Hall as [? _].
Qed.

(** From [/usr/local/bin], three steps to the root. *)
Lemma X8_parent_path_chain_witness :
  _parent_path "/usr/local/bin" = "/usr/local"
  /\ _parent_path (_parent_path (_parent_path "/usr/local/bin")) = "/"
  /\ _parent_path "/" = "/".
Proof.
  apply (X8_parent_path_chain ["usr"; "local"; "bin"]).
  repeat constructor.
Defined.

(** ** Catalogs and content *)

Lemma eq_refl_Source (s : Source) : __eq__ s (ObjSource s) = true.
Proof.
  unfold __eq__. apply andb_true_intro. split; by apply bool_decide_eq_true_2.
Qed.

(** The catalog leaves of a list of sources that the store holds. *)
Lemma catalog_leaves_exist (st : State) (sources : list loc) :
  Forall (fun so : loc => is_Some (store st !! so)) sources ->
  exists leaves,
    Forall2 (fun so leaf =>
               exists s', store st !! so = Some s' /\ leaf = SourceLeaf so (name s'))
            sources leaves.
Proof.
  induction 1 as [|so sources [s' Hso] _ [leaves IH]]; [by exists []|].
  exists (SourceLeaf so (name s') :: leaves). constructor; [by exists s'|done].
Qed.

(** X9: a catalog of catalogs shows its sources themselves.  A forced
    load of a [SourcesSource] whose sources are in the store returns one
    leaf for each of them, in order; the leaf at index [i] wraps the source
    at index [i] and carries its name, it has content, and [SearchInside]
    on it returns that very source (the same object, no copy) and changes
    nothing. *)
Theorem X9_catalog_browse (n : nat) (w : World) (self : loc) (s : Source)
    (sources : list loc) (st : State) :
  store st !! self = Some s ->
  kind s = KSourcesSource sources ->
  Forall (fun so : loc => is_Some (store st !! so)) sources ->
  exists leaves st',
    get_leaves (S n) w self true st = (Returned leaves, st')
    /\ length leaves = length sources
    /\ forall (i : nat) so, sources !! i = Some so ->
         exists s', store st !! so = Some s'
           /\ leaves !! i = Some (SourceLeaf so (name s'))
           /\ has_content w (SourceLeaf so (name s')) = true
           /\ forall fuel st0,
                activate fuel w SearchInside (SourceLeaf so (name s')) st0
                = (Returned (VSource so), st0).
Proof.
  intros Hs Hk Hall.
  destruct (catalog_leaves_exist st sources Hall) as [leaves Hleaves].
  assert (is_dynamic s = false) as Hd by (unfold is_dynamic; by rewrite Hk).
  exists leaves. eexists. split; [|split].
  - cbn [get_leaves]. unfold bind at 1, deref at 1. rewrite Hs. cbn beta iota.
    rewrite Hd.
    set (load := bind (print _) _).
    assert (load st
            = (Returned leaves,
               mkState (<[self := mkSource (name s) (kind s) (Some leaves)]> (store st))
                 (log st ++ [EvPrint (name s +:+ ": Loading..."); EvGetItems self;
                             EvPrint (" loaded " +:+ Py.fmt_d (Z.of_nat (length leaves))
                                        +:+ " items")]))) as Hload.
    { unfold load, bind at 1, print at 1, emit. cbn beta iota. unfold bind at 1.
      rewrite (SourcesSource_get_items _ w self s sources leaves) by done.
      unfold bind, set_cached_items, entered, print, emit, ret, aslist.
      cbn [store log]. rewrite Hs. cbn [store log].
      by rewrite <- !app_assoc. }
    destruct (cached_items s) as [cache|]; [|exact Hload].
    by rewrite orb_true_r.
  - symmetry. by eapply Forall2_length.
  - intros i so Hi.
    destruct (Forall2_lookup_l _ _ _ _ _ Hleaves Hi) as (leaf & Hleaf & s' & Hso & ->).
    exists s'. repeat split; done.
Qed.

(** The catalog of the example desktop, and its third entry. *)
Lemma X9_catalog_browse_witness :
  exists leaves st',
    get_leaves 1 (Desk.world false) 4 true Desk.state = (Returned leaves, st')
    /\ length leaves = 4
    /\ leaves !! 2 = Some (SourceLeaf 2 "empty")
    /\ activate 0 (Desk.world false) SearchInside (SourceLeaf 2 "empty") st'
       = (Returned (VSource 2), st').
Proof.
  destruct (X9_catalog_browse 0 (Desk.world false) 4
              (SourcesSource [0; 1; 2; 3] (Some SourcesSource_default_name))
              [0; 1; 2; 3] Desk.state eq_refl eq_refl)
    as (leaves & st' & Hg & Hlen & Hi).
  { repeat constructor; by eexists. }
  exists leaves, st'. split; [exact Hg|]. split; [exact Hlen|].
  destruct (Hi 2 2 eq_refl) as (s' & Hs' & Hleaf & _ & Hact).
  injection Hs' as <-. split; [exact Hleaf | apply Hact].
Defined.

(** X10: the content of a directory is made anew at each request.  Two
    calls of [content_source] on a file leaf with content give two
    different objects, both [DirectorySource] of the leaf's path and both
    without a cache, which compare equal; the objects that the store held
    are as they were, and nothing is printed or started. *)
Theorem X10_content_source_twice (w : World) (p nm : string) (st : State) :
  has_content w (FileLeaf p nm) = true ->
  exists l1 l2 st1 st2,
    content_source w (FileLeaf p nm) st = (Returned l1, st1)
    /\ content_source w (FileLeaf p nm) st1 = (Returned l2, st2)
    /\ l1 <> l2
    /\ store st2 !! l1 = Some (DirectorySource p)
    /\ store st2 !! l2 = Some (DirectorySource p)
    /\ cached_items (DirectorySource p) = None
    /\ __eq__ (DirectorySource p) (ObjSource (DirectorySource p)) = true
    /\ (forall (l : loc) s, store st !! l = Some s -> store st2 !! l = Some s)
    /\ log st2 = log st.
Proof.
  intros Hc. cbn [has_content] in Hc.
  exists (length (store st)), (S (length (store st))).
  exists (mkState (store st ++ [DirectorySource p]) (log st)).
  exists (mkState ((store st ++ [DirectorySource p]) ++ [DirectorySource p]) (log st)).
  repeat split.
  - unfold content_source. cbn [has_content]. by rewrite Hc.
  - unfold content_source. cbn [has_content]. rewrite Hc. unfold alloc.
    cbn [store log]. rewrite length_app. cbn [length]. by rewrite Nat.add_1_r.
  - lia.
  - cbn [store]. rewrite lookup_app_l by (rewrite length_app; simpl; lia).
    rewrite lookup_app_r by lia. by rewrite Nat.sub_diag.
  - cbn [store]. rewrite lookup_app_r by (rewrite length_app; simpl; lia).
    rewrite length_app. cbn [length].
    by replace (S (length (store st)) - (length (store st) + 1)) with 0 by lia.
  - apply eq_refl_Source.
  - intros l s Hl. cbn [store]. apply lookup_lt_Some in Hl as Hlt.
    rewrite lookup_app_l by (rewrite length_app; simpl; lia).
    by rewrite lookup_app_l.
Qed.

(** A file leaf on the directory [/p1]. *)
Lemma X10_content_source_twice_witness :
  exists st1 st2,
    content_source (Desk.world false) (FileLeaf "/p1" "p1") Desk.state
    = (Returned 5, st1)
    /\ content_source (Desk.world false) (FileLeaf "/p1" "p1") st1
       = (Returned 6, st2)
    /\ store st2 !! (5 : loc) = store st2 !! (6 : loc).
Proof.
  destruct (X10_content_source_twice (Desk.world false) "/p1" "p1"
              Desk.state eq_refl)
    as (l1 & l2 & st1 & st2 & H1 & H2 & _ & H3 & H4 & _).
  assert (l1 = 5) as ->.
  { assert ((content_source (Desk.world false) (FileLeaf "/p1" "p1") Desk.state).1
            = Returned 5) as E by reflexivity.
    rewrite H1 in E. by injection E. }
  exists st1, st2. split; [exact H1|].
  assert (st1 = mkState (Desk.sources ++ [DirectorySource "/p1"]) []) as Hst1.
  { assert ((content_source (Desk.world false) (FileLeaf "/p1" "p1") Desk.state).2
            = mkState (Desk.sources ++ [DirectorySource "/p1"]) []) as E by reflexivity.
    by rewrite H1 in E. }
  assert (l2 = 6) as ->.
  { assert ((content_source (Desk.world false) (FileLeaf "/p1" "p1")
               (mkState (Desk.sources ++ [DirectorySource "/p1"]) [])).1
            = Returned 6) as E by reflexivity.
    rewrite <- Hst1, H2 in E. by injection E. }
  split; [exact H2|]. by rewrite H3, H4.
Defined.

(** ** The actions that a leaf offers *)

(** The loop over the applications makes [OpenWith] actions only, one
    for each application not seen before. *)
Lemma open_with_actions_spec (w : World) (types : list (string * string)) :
  forall apps,
    Forall (fun a => exists d n, a = OpenWith d n) (open_with_actions w types apps)
    /\ NoDup (omap OpenWith_app (open_with_actions w types apps))
    /\ forall n, n ∈ omap OpenWith_app (open_with_actions w types apps) -> n ∉ apps.
Proof.
  induction types as [|info types IH]; intros apps.
  { repeat split; [constructor|constructor|]. intros n Hn. by apply elem_of_nil in Hn. }
  cbn [open_with_actions]. case_bool_decide as Hin; [apply IH|].
  destruct (IH (info.2 :: apps)) as (Hall & Hnd & Hout).
  split; [|split].
  - constructor; [by eexists _, _|done].
  - cbn [omap OpenWith_app]. constructor; [|done].
    intros Hn. apply Hout in Hn. apply Hn. by left.
  - cbn [omap OpenWith_app]. intros n [->|Hn]%elem_of_cons; [done|].
    apply Hout in Hn. intros Hn'. apply Hn. by right.
Qed.

(** X11: a leaf offers [SearchInside] exactly when it has content, and
    [RescanSource] only when it wraps a source that is not dynamic; so
    every factory action that a leaf offers returns a source when it is
    applied to that leaf, and the [InvalidLeaf] of these two actions is
    never met by following the offers.  Asking for the actions changes
    nothing. *)
Theorem X11_offers_match_content (w : World) (leaf : Leaf) (st st' : State)
    (acts : list Action) :
  get_actions w leaf st = (Returned acts, st') ->
  st' = st
  /\ (SearchInside ∈ acts <-> has_content w leaf = true)
  /\ (RescanSource ∈ acts ->
        exists src nm s, leaf = SourceLeaf src nm
                         /\ store st !! src = Some s /\ is_dynamic s = false)
  /\ forall a fuel st0, a ∈ acts -> is_factory a = true ->
       exists src st1, activate fuel w a leaf st0 = (Returned (VSource src), st1).
Proof.
  intros Hg.
  set (plain := fun a : Action => a <> SearchInside /\ a <> RescanSource).
  assert (forall l : list Action, Forall plain l ->
            (SearchInside ∈ l <-> False) /\ (RescanSource ∈ l -> False)) as Hplain.
  { intros l Hl. rewrite Forall_forall in Hl. split; [split; [|done]|].
    - intros H. by destruct (Hl _ H).
    - intros H. by destruct (Hl _ H). }
  assert (st' = st
          /\ (SearchInside ∈ acts <-> has_content w leaf = true)
          /\ (RescanSource ∈ acts ->
                exists src nm s, leaf = SourceLeaf src nm
                                 /\ store st !! src = Some s /\ is_dynamic s = false))
    as (Hst & Hsearch & Hrescan).
  { destruct leaf as [o n| |p n|src n|item|u n]; cbn [get_actions has_content] in *.
    - injection Hg as <- <-. destruct (Hplain [] ltac:(constructor)) as [H1 H2].
      split; [done|]. split; [by rewrite H1|by intros ?%H2].
    - injection Hg as <- <-. destruct (Hplain [] ltac:(constructor)) as [H1 H2].
      split; [done|]. split; [by rewrite H1|by intros ?%H2].
    - destruct (isdir w p) eqn:Hdir.
      + injection Hg as <- <-. split; [done|]. split.
        * split; [done|]. intros _. cbn [app].
          repeat (apply elem_of_cons; first [by left | right]).
        * intros H. cbn [app] in H.
          repeat (apply elem_of_cons in H as [H|H]; [discriminate H|]).
          by apply elem_of_nil in H.
      + destruct (open_with_actions_spec w
                    (mime_get_all_applications w (get_file_mime_type w p))
                    match mime_get_default_application w (get_file_mime_type w p) with
                    | Some d => [d.2]
                    | None => []
                    end) as (Hall & _ & _).
        assert (st' = st /\ Forall plain acts) as [-> Hacts].
        { destruct (access_r w p); injection Hg as <- <-; (split; [done|]).
          - apply Forall_cons. split.
            { by destruct (mime_get_default_application w _). }
            do 3 (apply Forall_cons; split; [by split|]).
            apply Forall_app. split.
            + eapply Forall_impl; [exact Hall|]. by intros a (d & n0 & ->).
            + destruct (access_rx w p); by repeat constructor.
          - by repeat constructor. }
        destruct (Hplain acts Hacts) as [H1 H2].
        split; [done|]. split; [by rewrite H1|by intros ?%H2].
    - unfold bind, deref in Hg. destruct (store st !! src) as [s|] eqn:Hs; [|done].
      injection Hg as <- <-. split; [done|]. split.
      + split; [done|]. intros _. by left.
      + intros H. exists src, n, s. split; [done|]. split; [done|].
        destruct (is_dynamic s); [|done]. cbn [negb] in H.
        apply elem_of_cons in H as [H|H]; [discriminate H|].
        by apply elem_of_nil in H.
    - injection Hg as <- <-.
      destruct (Hplain [Launch None false; Launch (Some "Launch in Terminal") true; Echo])
        as [H1 H2]; [by repeat constructor|].
      split; [done|]. split; [by rewrite H1|by intros ?%H2].
    - injection Hg as <- <-.
      destruct (Hplain [OpenUrl None; Echo]) as [H1 H2]; [by repeat constructor|].
      split; [done|]. split; [by rewrite H1|by intros ?%H2]. }
  split; [done|]. split; [done|]. split; [done|].
  intros a fuel st0 Ha Hf. destruct a; try discriminate Hf.
  apply Hsearch in Ha. unfold activate. rewrite Ha. cbn [negb]. unfold bind.
  destruct leaf; try discriminate Ha; cbn [content_source]; rewrite ?Ha; eauto.
Qed.

(** What a file leaf on the directory [/p1] offers. *)
Lemma X11_offers_match_content_witness :
  SearchInside ∈ [OpenDirectory; RevealFile None; Dragbox; Echo; OpenTerminal;
                  SearchInside]
  <-> has_content (Desk.world false) (FileLeaf "/p1" "p1") = true.
Proof.
  apply (X11_offers_match_content (Desk.world false) (FileLeaf "/p1" "p1")
           Desk.state Desk.state).
  reflexivity.
Defined.



(** ** More on actions *)

Lemma words_go_app_space (cur : option string) (s t : string) :
  String.words_go cur (s +:+ String " " t)
  = String.words_go cur s ++ String.words_go None t.
Proof.
  revert cur. induction s as [|a s IH]; intros cur; [done|].
  rewrite string_app_cons. cbn [String.words_go].
  destruct (Ascii.is_space a); [|apply IH].
  by rewrite IH, app_assoc.
Qed.

(** X13: [preprocess_item] completes a command line once.  When the
    [Exec] line of the desktop item is a single word, the call appends
    [" %F"] to it, and a second call on the result changes nothing and
    prints nothing; when the line has several words already, the first
    call changes nothing and prints nothing. *)
Theorem X13_preprocess_item_once (item : DesktopItem) (exc : string) (st : State) :
  di_exec item = Some exc ->
  (length (Py.split_ws exc) = 1 ->
     exists item' st',
       preprocess_item item st = (Returned item', st')
       /\ di_exec item' = Some (exc +:+ " %F")
       /\ store st' = store st
       /\ preprocess_item item' st' = (Returned item', st'))
  /\ (1 < length (Py.split_ws exc) ->
      preprocess_item item st = (Returned item, st)).
Proof.
  intros He. split; intros Hlen.
  - assert (Py.truthy exc = true) as Ht by (by destruct exc).
    eexists _, _. split; [|split; [|split]].
    + unfold preprocess_item. rewrite He, Ht. cbn [negb].
      rewrite bool_decide_eq_false_2 by lia. reflexivity.
    + reflexivity.
    + reflexivity.
    + unfold preprocess_item at 1. cbn [di_exec].
      rewrite (truthy_app_l exc " %F" Ht). cbn [negb].
      rewrite bool_decide_eq_true_2; [done|].
      unfold Py.split_ws, String.words in *.
      change (exc +:+ " %F") with (exc +:+ String " " "%F").
      rewrite words_go_app_space, length_app, Hlen. cbn. lia.
  - unfold preprocess_item. rewrite He.
    destruct (Py.truthy exc); [|done]. cbn [negb].
    by rewrite bool_decide_eq_true_2.
Qed.

(** An entry that runs [gedit], and one that runs [gedit %U]. *)
Lemma X13_preprocess_item_once_witness :
  (exists item' st',
     preprocess_item
       (mkDesktopItem "file:///gedit.desktop" (Some "gedit") (Some "gedit") None
          (Some "gedit") (Some "Application") false false false None)
       Desk.state = (Returned item', st')
     /\ di_exec item' = Some "gedit %F"
     /\ store st' = store Desk.state
     /\ preprocess_item item' st' = (Returned item', st'))
  /\ preprocess_item
       (mkDesktopItem "file:///gedit.desktop" (Some "gedit") (Some "gedit") None
          (Some "gedit %U") (Some "Application") false false false None)
       Desk.state
     = (Returned
          (mkDesktopItem "file:///gedit.desktop" (Some "gedit") (Some "gedit") None
             (Some "gedit %U") (Some "Application") false false false None),
        Desk.state).
Proof.
  split.
  - apply (proj1 (X13_preprocess_item_once
                    (mkDesktopItem "file:///gedit.desktop" (Some "gedit") (Some "gedit")
                       None (Some "gedit") (Some "Application") false false false None)
                    "gedit" Desk.state eq_refl)).
    reflexivity.
  - apply (proj2 (X13_preprocess_item_once
                    (mkDesktopItem "file:///gedit.desktop" (Some "gedit") (Some "gedit")
                       None (Some "gedit %U") (Some "Application") false false false None)
                    "gedit %U" Desk.state eq_refl)).
    vm_compute. lia.
Defined.

Lemma only_logs_refl (st : State) : only_logs st st.
Proof. split; [done|]. exists []. by rewrite app_nil_r. Qed.

Lemma only_logs_emit (e : Event) (st : State) : only_logs st (emit e st).2.
Proof. split; [done|]. by exists [e]. Qed.

Lemma only_logs_bind {A B} (m : M A) (f : A -> M B) (st : State) :
  only_logs st (m st).2 ->
  (forall a st1, m st = (Returned a, st1) -> only_logs st1 (f a st1).2) ->
  only_logs st (bind m f st).2.
Proof.
  intros Hm Hf. unfold bind. destruct (m st) as [[a| | |] st1] eqn:E; try done.
  destruct Hm as (Hs1 & evs1 & Hl1). destruct (Hf a st1 eq_refl) as (Hs2 & evs2 & Hl2).
  cbn [snd] in *. split; [congruence|]. exists (evs1 ++ evs2). by rewrite Hl2, Hl1, app_assoc.
Qed.

Lemma only_logs_preprocess_item (item : DesktopItem) (st : State) :
  only_logs st (preprocess_item item st).2.
Proof.
  unfold preprocess_item. destruct (di_exec item) as [exc|]; [|apply only_logs_refl].
  destruct (negb (Py.truthy exc)); [apply only_logs_refl|].
  case_bool_decide; [apply only_logs_refl|].
  repeat (apply only_logs_bind; [apply only_logs_emit|intros ? ? _]).
  apply only_logs_refl.
Qed.

(** An action other than [SearchInside] and [RescanSource] leaves the
    store alone. *)
Lemma only_logs_activate (fuel : nat) (w : World) (a : Action) (leaf : Leaf)
    (st : State) :
  a <> SearchInside -> a <> RescanSource ->
  only_logs st (activate fuel w a leaf st).2.
Proof.
  intros Hs Hr. destruct a; try done; unfold activate.
  - apply only_logs_refl.
  - repeat (apply only_logs_bind; [apply only_logs_emit|intros ? ? _]).
    destruct leaf; try apply only_logs_refl.
    apply only_logs_bind; [apply only_logs_emit|intros ? ? _]. apply only_logs_refl.
  - destruct desktop_item as [item|]; [|apply only_logs_refl].
    apply only_logs_bind; [apply only_logs_preprocess_item|intros ? ? _].
    destruct (Leaf_object leaf); try apply only_logs_refl.
    apply only_logs_bind; [apply only_logs_emit|intros ? ? _]. apply only_logs_refl.
  - apply only_logs_bind; [apply only_logs_emit|intros ? ? _].
    destruct (Leaf_object leaf); try apply only_logs_refl.
    apply only_logs_bind; [apply only_logs_emit|intros ? ? _]. apply only_logs_refl.
  - apply only_logs_bind; [apply only_logs_emit|intros ? ? _].
    destruct (Leaf_object leaf); try apply only_logs_refl.
    apply only_logs_bind; [apply only_logs_emit|intros ? ? _]. apply only_logs_refl.
  - apply only_logs_bind; [apply only_logs_emit|intros ? ? _].
    destruct (Leaf_object leaf); try apply only_logs_refl.
    apply only_logs_bind; [apply only_logs_emit|intros ? ? _]. apply only_logs_refl.
  - destruct (Leaf_object leaf); try apply only_logs_refl.
    apply only_logs_bind; [apply only_logs_emit|intros ? ? _]. apply only_logs_refl.
  - repeat (apply only_logs_bind; [apply only_logs_emit|intros ? ? _]).
    apply only_logs_refl.
  - apply only_logs_bind; [apply only_logs_emit|intros ? ? _]. apply only_logs_refl.
  - destruct (Leaf_object leaf); try apply only_logs_refl.
    apply only_logs_bind; [apply only_logs_emit|intros ? ? _]. apply only_logs_refl.
  - destruct (Leaf_object leaf); try apply only_logs_refl.
    apply only_logs_bind; [apply only_logs_emit|intros ? ? _]. apply only_logs_refl.
  - apply only_logs_refl.
Qed.

(** X14: what an action may change.  Applying any action to any leaf
    only adds to the log, and every source of the store stays where it is,
    with its name and attributes; an action other than [SearchInside]
    (which may make a new source) and [RescanSource] (which may replace a
    cache) leaves the whole store as it was, also when it raises. *)
Theorem X14_actions_frame (fuel : nat) (w : World) (a : Action) (leaf : Leaf)
    (st : State) :
  (exists evs, log (activate fuel w a leaf st).2 = log st ++ evs)
  /\ (forall (l : loc) s, store st !! l = Some s ->
        exists c, store (activate fuel w a leaf st).2 !! l
                  = Some (mkSource (name s) (kind s) c))
  /\ (a <> SearchInside -> a <> RescanSource ->
      store (activate fuel w a leaf st).2 = store st).
Proof.
  assert (forall st', only_logs st st' ->
            (exists evs, log st' = log st ++ evs)
            /\ (forall (l : loc) s, store st !! l = Some s ->
                  exists c, store st' !! l = Some (mkSource (name s) (kind s) c)))
    as Honly.
  { intros st' (Hst & Hlog). split; [done|]. intros l [n k c] Hl. exists c.
    by rewrite Hst. }
  assert (forall st', evolves st st' ->
            (exists evs, log st' = log st ++ evs)
            /\ (forall (l : loc) s, store st !! l = Some s ->
                  exists c, store st' !! l = Some (mkSource (name s) (kind s) c)))
    as Hevolves.
  { intros st' (_ & Hobj & Hlog). split; [done|]. intros l s Hl.
    destruct (Hobj l s Hl) as (c & Hc & _). by exists c. }
  cut ((exists evs, log (activate fuel w a leaf st).2 = log st ++ evs)
       /\ (forall (l : loc) s, store st !! l = Some s ->
             exists c, store (activate fuel w a leaf st).2 !! l
                       = Some (mkSource (name s) (kind s) c))).
  { intros [HA HB]. split; [done|]. split; [done|].
    intros Hs Hr. by destruct (only_logs_activate fuel w a leaf st Hs Hr). }
  assert (a = SearchInside \/ a = RescanSource
          \/ (a <> SearchInside /\ a <> RescanSource)) as [->|[->|[Hs Hr]]]
    by (destruct a; first [by left | by right; left | by right; right]);
    [| |by apply Honly, only_logs_activate].
  { unfold activate. destruct (has_content w leaf) eqn:Hc; cbn [negb];
      [|by apply Honly, only_logs_refl].
    unfold bind. destruct leaf; try discriminate Hc; cbn [content_source].
    - rewrite Hc. unfold alloc, ret. cbn [snd store log]. split.
      + exists []. by rewrite app_nil_r.
      + intros l [n k c] Hl. exists c. rewrite lookup_app_l; [done|].
        by eapply lookup_lt_Some.
    - by apply Honly, only_logs_refl. }
  unfold activate. destruct (has_content w leaf); cbn [negb];
    [|by apply Honly, only_logs_refl].
  destruct (Leaf_object leaf); try (by apply Honly, only_logs_refl).
  apply Hevolves. apply evolves_bind; [apply evolves_deref|]. intros so st1 _.
  destruct (negb (is_dynamic so)); [|apply evolves_refl].
  apply evolves_bind; [apply evolves_get_leaves|]. intros; apply evolves_refl.
Qed.

(** ** Applications and recent documents *)




(** Two data directories with a [gedit.desktop] each, a hidden entry and a
    file that is no entry: two applications are listed. *)
Example AppSource_example :
  map (fun i => Py.fmt_s (di_name i)) (app_desktop_files Apps.world)
  = ["gedit"; "term"].
Proof. vm_compute. reflexivity. Qed.

(** X16: what the source of recent documents lists.  Every leaf is the
    leaf of a recent item that exists and is at most [max_days] old, a
    file leaf for a local item and a URL leaf otherwise; and the list
    stops at the first item that is older than [max_days]: whatever
    follows it in the list of the recent manager is never shown, however
    recent. *)
Theorem X16_recent_leaves (max_days : Z) (items : list RecentItem) :
  (forall leaf, leaf ∈ recent_leaves max_days items ->
     exists item, item ∈ items /\ ri_exists item = true
                  /\ (ri_age item <= max_days)%Z /\ leaf = recent_leaf item)
  /\ (forall l1 old l2, items = l1 ++ old :: l2 -> (ri_age old > max_days)%Z ->
        recent_leaves max_days items = recent_leaves max_days l1).
Proof.
  split.
  - induction items as [|item items IH]; intros leaf Hleaf.
    { by apply elem_of_nil in Hleaf. }
    cbn [recent_leaves] in Hleaf. case_bool_decide as Hage.
    { by apply elem_of_nil in Hleaf. }
    destruct (ri_exists item) eqn:Hex; cbn [negb] in Hleaf.
    + apply elem_of_cons in Hleaf as [->|Hleaf].
      * exists item. split; [by left|]. split; [done|]. split; [lia|done].
      * destruct (IH leaf Hleaf) as (i & Hi & H). exists i. split; [by right|done].
    + destruct (IH leaf Hleaf) as (i & Hi & H). exists i. split; [by right|done].
  - intros l1 old l2 -> Hold. induction l1 as [|item l1 IH].
    + cbn [app recent_leaves]. by rewrite bool_decide_eq_true_2.
    + cbn [app recent_leaves]. case_bool_decide; [done|].
      destruct (negb (ri_exists item)); [done|]. by rewrite IH.
Qed.

(** Five recent items, the fourth of them twenty days old. *)
Lemma X16_recent_leaves_witness :
  recent_leaves 14 (recent_items Apps.world)
  = recent_leaves 14 (take 3 (recent_items Apps.world))
  /\ recent_leaves 14 (recent_items Apps.world)
     = [FileLeaf "/home/u/a.txt" "a.txt"; UrlLeaf "http://example.org/" "example.org"].
Proof.
  split; [|vm_compute; reflexivity].
  apply (proj2 (X16_recent_leaves 14 (recent_items Apps.world))
           (take 3 (recent_items Apps.world))
           (mkRecentItem 20 true "file:///home/u/old.txt" "old.txt" true "/home/u/old.txt")
           [mkRecentItem 5 true "file:///home/u/late.txt" "late.txt" true
              "/home/u/late.txt"]).
  - reflexivity.
  - reflexivity.
Defined.


(** ** Unions that contain themselves, and the way back *)

(** When a sequence of calls has returned, each of them has. *)
Lemma mapM_Returned_inv {A B} (f : A -> M B) (l : list A) :
  (forall x st0, evolves st0 (f x st0).2) ->
  forall st ys st' x,
    mapM f l st = (Returned ys, st') -> x ∈ l ->
    exists st0 y st1, evolves st st0 /\ f x st0 = (Returned y, st1).
Proof.
  intros Hf. induction l as [|x0 l IH]; intros st ys st' x Hm Hx.
  { by apply elem_of_nil in Hx. }
  cbn [mapM] in Hm. unfold bind at 1 in Hm.
  destruct (f x0 st) as [[y0| | |] st1] eqn:E0; try done.
  apply elem_of_cons in Hx as [->|Hx].
  { exists st, y0, st1. split; [apply evolves_refl|done]. }
  unfold bind at 1 in Hm.
  destruct (mapM f l st1) as [[ys1| | |] st2] eqn:E1; try done.
  destruct (IH st1 ys1 st2 x E1 Hx) as (st0 & y & st3 & Hev & Hy).
  exists st0, y, st3. split; [|done].
  eapply evolves_trans; [|exact Hev].
  pose proof (Hf x0 st) as H0. by rewrite E0 in H0.
Qed.

(** X17: a union that lists itself among its sources never yields
    items: whatever the budget, the other sources and the state of the
    caches, [get_leaves] on it does not return (each call leads to another
    call on the same union). *)
Theorem X17_union_of_itself (fuel : nat) (w : World) (self : loc) (s : Source)
    (sources : list loc) (force_update : bool) (st : State) :
  store st !! self = Some s ->
  kind s = KMultiSource sources ->
  self ∈ sources ->
  returned (get_leaves fuel w self force_update st).1 = false.
Proof.
  intros Hs Hk Hin. revert force_update st Hs.
  induction fuel as [|n IH]; intros f st Hs; [done|].
  assert (is_dynamic s = true) as Hd by (unfold is_dynamic; by rewrite Hk).
  cbn [get_leaves]. unfold bind at 1, deref at 1. rewrite Hs. cbn beta iota.
  rewrite Hd. unfold get_items, bind at 1, emit. cbn beta iota.
  fold (entered self st). unfold bind at 1, deref at 1.
  change (store (entered self st)) with (store st). rewrite Hs. cbn beta iota.
  rewrite Hk. unfold bind.
  destruct (mapM (fun so => get_leaves n w so false) sources (entered self st))
    as [[its| | |] st'] eqn:Hm; try done.
  exfalso.
  destruct (mapM_Returned_inv (fun so => get_leaves n w so false) sources
              (fun x st0 => evolves_get_leaves n w x false st0)
              _ _ _ self Hm Hin) as (st0 & y & st1 & (_ & Hobj & _) & Hy).
  destruct (Hobj self s Hs) as (c & Hc & Hcd).
  rewrite (Hcd Hd) in Hc.
  assert (store st0 !! self = Some s) as Hs0 by (by destruct s).
  specialize (IH false st0 Hs0). by rewrite Hy in IH.
Qed.

(** The union over its own location, with a budget of a hundred calls. *)
Lemma X17_union_of_itself_witness :
  returned (get_leaves 100 (Desk.world false) 0 false knot).1 = false.
Proof.
  apply (X17_union_of_itself 100 (Desk.world false) 0 (MultiSource [0]) [0] false knot).
  - reflexivity.
  - reflexivity.
  - by left.
Defined.

(** X18: into a directory and back.  The content of a file leaf on the
    directory [/c1/.../cn/c] is a directory source whose parent is a new
    directory source of [/c1/.../cn], and that one is equal to every
    directory source of [/c1/.../cn], whatever it has cached: going into a
    sub-directory and up again leads back to the same catalog. *)
Theorem X18_into_and_back (w : World) (comps : list string) (c nm : string)
    (st : State) (cache : option (list Leaf)) :
  Forall (fun c => clean c = true) (comps ++ [c]) ->
  isdir w (abs_path (comps ++ [c])) = true ->
  samefile w (abs_path (comps ++ [c])) (abs_path comps) = Some false ->
  exists l1 st1 l2 st2,
    content_source w (FileLeaf (abs_path (comps ++ [c])) nm) st = (Returned l1, st1)
    /\ get_parent w l1 st1 = (Returned (VSource l2), st2)
    /\ store st2 !! l2 = Some (DirectorySource (abs_path comps))
    /\ __eq__ (mkSource (name (DirectorySource (abs_path comps)))
                 (kind (DirectorySource (abs_path comps))) cache)
              (ObjSource (DirectorySource (abs_path comps))) = true.
Proof.
  intros Hclean Hdir Hsame.
  pose proof (parent_path_abs comps c Hclean) as Hparent.
  set (p := abs_path (comps ++ [c])) in *.
  exists (length (store st)), (mkState (store st ++ [DirectorySource p]) (log st)).
  exists (S (length (store st))).
  exists (mkState ((store st ++ [DirectorySource p])
                   ++ [DirectorySource (abs_path comps)]) (log st)).
  assert ((store st ++ [DirectorySource p]) !! (length (store st) : loc)
          = Some (DirectorySource p)) as Hl1.
  { rewrite lookup_app_r by lia. by rewrite Nat.sub_diag. }
  split; [|split; [|split]].
  - unfold content_source. cbn [has_content]. by rewrite Hdir.
  - unfold get_parent, bind at 1, deref at 1. cbn [store]. rewrite Hl1.
    cbn beta iota. cbn [kind DirectorySource Source_init].
    unfold bind at 1, has_parent. cbn [kind DirectorySource Source_init].
    rewrite Hparent, Hsame. unfold bind, alloc, ret. cbn [negb store log].
    rewrite length_app. cbn [length]. by rewrite Nat.add_1_r.
  - cbn [store]. rewrite lookup_app_r by (rewrite length_app; simpl; lia).
    rewrite length_app. cbn [length].
    by replace (S (length (store st)) - (length (store st) + 1)) with 0 by lia.
  - unfold __eq__. apply andb_true_intro.
    split; apply bool_decide_eq_true_2; [reflexivity|].
    apply repr_cached_items.
Qed.

(** Into [/usr/local] and back to [/usr]. *)
Lemma X18_into_and_back_witness :
  exists l1 st1 l2 st2,
    content_source (Desk.world false) (FileLeaf "/usr/local" "local") Desk.state
    = (Returned l1, st1)
    /\ get_parent (Desk.world false) l1 st1 = (Returned (VSource l2), st2)
    /\ store st2 !! l2 = Some (DirectorySource "/usr")
    /\ __eq__ (mkSource "usr" (KDirectorySource "/usr" false)
                 (Some [FileLeaf "/usr/local" "local"]))
              (ObjSource (DirectorySource "/usr")) = true.
Proof.
  apply (X18_into_and_back (Desk.world false) ["usr"] "local" "local" Desk.state
           (Some [FileLeaf "/usr/local" "local"])).
  - repeat constructor.
  - reflexivity.
  - reflexivity.
Defined.

(** ** File sources told apart *)

(** X19: what tells two file sources apart.  The paths count only
    through their sorted list joined by spaces: when these joined lists
    agree, the two sources are equal exactly when their depths are equal,
    so that a different depth always makes a different source, while two
    different lists of paths that join to the same text (a path with a
    space against two paths) make equal sources. *)
Theorem X19_FileSource_told_apart (s1 s2 : Source) (l1 l2 : list string)
    (d1 d2 : Z) :
  kind s1 = KFileSource l1 d1 ->
  kind s2 = KFileSource l2 d2 ->
  Py.join " " (Py.sorted l1) = Py.join " " (Py.sorted l2) ->
  (__eq__ s1 (ObjSource s2) = true <-> d1 = d2).
Proof.
  intros H1 H2 Hj. destruct s1 as [n1 k1 c1], s2 as [n2 k2 c2].
  cbn [kind] in *. subst k1 k2. unfold __eq__.
  assert (class_name (ObjSource (mkSource n1 (KFileSource l1 d1) c1))
          = class_name (ObjSource (mkSource n2 (KFileSource l2 d2) c2))) as Hc
    by reflexivity.
  rewrite (bool_decide_eq_true_2 _ Hc). cbn [andb]. rewrite bool_decide_eq_true.
  cbn [__repr__]. rewrite Hj. split.
  - intros H. do 5 apply (inj (String.app _)) in H.
    apply string_app_inj_r in H. by apply (inj pretty) in H.
  - by intros ->.
Qed.

(** One path with a space in it, and two paths. *)
Lemma X19_FileSource_told_apart_witness :
  __eq__ (mkSource "x y" (KFileSource ["/x y"] 1) None)
         (ObjSource (mkSource "x et al" (KFileSource ["/x"; "y"] 1) None)) = true.
Proof.
  apply (X19_FileSource_told_apart
           (mkSource "x y" (KFileSource ["/x y"] 1) None)
           (mkSource "x et al" (KFileSource ["/x"; "y"] 1) None)
           ["/x y"] ["/x"; "y"] 1 1 eq_refl eq_refl).
  - vm_compute. reflexivity.
  - reflexivity.
Defined.
